(** * OpenStack instance metadata: parsing, the two sources and the cache

    A shallow embedding of
    [pkg/cloudprovider/providers/openstack/metadata.go].

    Go values are modelled as the code has them: a pointer that may be nil
    is an [option], a function returning [(x, y, err)] returns the triple,
    [err == nil] is [None].  A run-time panic (a method call through a nil
    interface) is an outcome of its own.  Calls to the operating system and
    to the network are answered by an environment [Env] and are recorded,
    in order, in the trace of the state.  Calls to [glog] have no effect on
    results and are left out. *)

From Stdlib Require Import String Ascii List Bool NArith ZArith.
Import ListNotations.
Local Open Scope list_scope.
Local Open Scope string_scope.
Set Warnings "-register-all".

(** ** Errors *)

Inductive error : Type :=
| ErrBadMetadata                      (* "Invalid OpenStack metadata, got empty uuid" *)
| ErrInvalid                          (* os.ErrInvalid *)
| ErrNotExist                         (* os.ErrNotExist *)
| PathError (op path : string) (err : error)   (* *os.PathError *)
| SyntaxError (msg : string)          (* encoding/json: the text is not JSON *)
| UnmarshalTypeError (type : string)  (* encoding/json: value of the wrong kind *)
| errReadOnClosedResBody              (* net/http: read on closed response body *)
| Errorf (msg : string)               (* fmt.Errorf *)
| OtherError (msg : string).          (* any other error of a collaborator *)

(** [os.IsNotExist]: looks through a [*PathError]. *)
Definition underlyingError (err : error) : error :=
  match err with
  | PathError _ _ e => e
  | e => e
  end.

Definition os_IsNotExist (err : option error) : bool :=
  match err with
  | None => false
  | Some e => match underlyingError e with ErrNotExist => true | _ => false end
  end.

(** ** Outcomes: a returned value or a panic *)

Inductive outcome (A : Type) : Type :=
| Ret (a : A)
| Panic.
Arguments Ret {A} a.
Arguments Panic {A}.

(** ** JSON documents and [encoding/json]

    [encoding/json] is Go's standard library.  A document is represented
    by the JSON value its text denotes; decoding into a struct follows the
    package's rules: object keys are matched to the field tags, an exact
    match first, otherwise a match that ignores letter case; keys that
    match no field are skipped; [null] leaves a string field as it is; a
    value of the wrong kind is recorded as an [UnmarshalTypeError] (the
    first one is the error returned) and decoding goes on. *)

Module JSON.

Inductive value : Type :=
| Null
| Bool (b : bool)
| Number (lit : string)
| Str (s : string)
| Array (elems : list value)
| Object (members : list (string * value)).

(** What a decoder finds on a stream up to the end of the first JSON
    value: that value, or the error that [Decode] reports (a failed
    [Read], an empty or truncated stream, text that is not JSON). *)
Inductive stream : Type :=
| Text (v : value)
| Broken (err : error).

Definition caseMask : N := 223.   (* ^byte(0x20) *)

Definition upper (b : ascii) : N := N.land (N_of_ascii b) caseMask.

Definition isLetter (b : ascii) : bool :=
  ((65 <=? upper b) && (upper b <=? 90))%N.

(** Folding of a key [t] against the ASCII field name [s]: letters are
    compared without case, other bytes exactly; the Kelvin sign (U+212A,
    bytes E2 84 AA) folds to k and the long s (U+017F, bytes C5 BF) to s. *)
Fixpoint equalFold (s t : string) : bool :=
  match s, t with
  | EmptyString, EmptyString => true
  | EmptyString, String _ _ => false
  | String _ _, EmptyString => false
  | String sb s', String tb t' =>
      if (N_of_ascii tb <? 128)%N then
        (Ascii.eqb sb tb || (isLetter sb && (upper sb =? upper tb)%N))
        && equalFold s' t'
      else if (upper sb =? 83)%N then          (* 's', 'S' *)
        match t with
        | String "197"%char (String "191"%char t'') => equalFold s' t''
        | _ => false
        end
      else if (upper sb =? 75)%N then          (* 'k', 'K' *)
        match t with
        | String "226"%char (String "132"%char (String "170"%char t'')) =>
            equalFold s' t''
        | _ => false
        end
      else false
  end.

(** The field a key designates among the tags [fields] of a struct (in
    declaration order): the exact match if there is one, otherwise the
    first tag equal up to case. *)
Fixpoint findField (fields : list string) (key : string)
         (f : option string) : option string :=
  match fields with
  | [] => f
  | ff :: rest =>
      if String.eqb ff key then Some ff
      else findField rest key
             (match f with
              | None => if equalFold ff key then Some ff else None
              | Some _ => f
              end)
  end.

(** The decoder keeps the first error it meets. *)
Definition saveError (err : error) (saved : option error) : option error :=
  match saved with
  | None => Some err
  | Some _ => saved
  end.

(** Decoding a value into a [string] variable holding [old]. *)
Definition storeString (v : value) (old : string) (saved : option error)
  : string * option error :=
  match v with
  | Str s => (s, saved)
  | Null => (old, saved)
  | _ => (old, saveError (UnmarshalTypeError "string") saved)
  end.

(** Decoding the members of an object, in document order, into a struct
    [x]; [store f v x saved] decodes [v] into the field tagged [f]. *)
Section Struct.
Context {T : Type}.
Variable fields : list string.
Variable store : string -> value -> T -> option error -> T * option error.

Fixpoint object (members : list (string * value)) (x : T)
         (saved : option error) : T * option error :=
  match members with
  | [] => (x, saved)
  | (key, v) :: rest =>
      match findField fields key None with
      | None => object rest x saved
      | Some f => let '(x', saved') := store f v x saved in
                  object rest x' saved'
      end
  end.

(** Decoding a value into a struct variable of Go type [type]. *)
Definition storeStruct (type : string) (v : value) (x : T)
           (saved : option error) : T * option error :=
  match v with
  | Object members => object members x saved
  | Null => (x, saved)
  | _ => (x, saveError (UnmarshalTypeError type) saved)
  end.
End Struct.

(** Decoding a value into a slice variable, as the package documents it:
    an array resets the slice and appends each element, decoded into a
    fresh [zero]; [null] sets the slice to nil. *)
Section Slice.
Context {T : Type}.
Variable zero : T.
Variable storeElem : value -> T -> option error -> T * option error.

Fixpoint array (elems : list value) (saved : option error)
  : list T * option error :=
  match elems with
  | [] => ([], saved)
  | v :: rest =>
      let '(x, saved') := storeElem v zero saved in
      let '(xs, saved'') := array rest saved' in
      (x :: xs, saved'')
  end.

Definition storeSlice (type : string) (v : value) (old : list T)
           (saved : option error) : list T * option error :=
  match v with
  | Array elems => array elems saved
  | Null => ([], saved)
  | _ => (old, saveError (UnmarshalTypeError type) saved)
  end.
End Slice.

End JSON.

(** ** The data model *)

Record Metadata : Type := mkMetadata {
  Uuid : string;
  Name : string;
  AvailabilityZone : string
}.

Record Link : Type := mkLink {
  MAC : string;
  LinkType : string;     (* Link.Type *)
  Id : string
}.

Record Network : Type := mkNetwork {
  NetworkId : string;
  IP : string;
  LinkId : string;
  NetLink : option Link; (* Network.Link, a *Link; tagged json:"-" *)
  NetworkType : string   (* Network.Type *)
}.

Record Service : Type := mkService {
  ServiceType : string;  (* Service.Type *)
  Address : string
}.

Record Networkdata : Type := mkNetworkdata {
  Links : list Link;
  Networks : list Network;
  Services : list Service
}.

(** Zero values of the structs, as [var x T] gives them. *)
Definition zeroMetadata : Metadata := mkMetadata "" "" "".
Definition zeroLink : Link := mkLink "" "" "".
Definition zeroNetwork : Network := mkNetwork "" "" "" None "".
Definition zeroService : Service := mkService "" "".
Definition zeroNetworkdata : Networkdata := mkNetworkdata [] [] [].

(** The JSON tags of the fields, in declaration order.  [Network.Link]
    has the tag "-" and is no JSON field. *)
Definition MetadataFields : list string := ["uuid"; "name"; "availability_zone"].
Definition LinkFields : list string := ["ethernet_mac_address"; "type"; "id"].
Definition NetworkFields : list string := ["network_id"; "ip_address"; "link"; "type"].
Definition ServiceFields : list string := ["type"; "address"].
Definition NetworkdataFields : list string := ["links"; "networks"; "services"].

Definition storeMetadataField (f : string) (v : JSON.value) (m : Metadata)
           (saved : option error) : Metadata * option error :=
  if f =? "uuid" then
    let '(s, e) := JSON.storeString v (Uuid m) saved in
    (mkMetadata s (Name m) (AvailabilityZone m), e)
  else if f =? "name" then
    let '(s, e) := JSON.storeString v (Name m) saved in
    (mkMetadata (Uuid m) s (AvailabilityZone m), e)
  else if f =? "availability_zone" then
    let '(s, e) := JSON.storeString v (AvailabilityZone m) saved in
    (mkMetadata (Uuid m) (Name m) s, e)
  else (m, saved).

Definition storeLinkField (f : string) (v : JSON.value) (l : Link)
           (saved : option error) : Link * option error :=
  if f =? "ethernet_mac_address" then
    let '(s, e) := JSON.storeString v (MAC l) saved in
    (mkLink s (LinkType l) (Id l), e)
  else if f =? "type" then
    let '(s, e) := JSON.storeString v (LinkType l) saved in
    (mkLink (MAC l) s (Id l), e)
  else if f =? "id" then
    let '(s, e) := JSON.storeString v (Id l) saved in
    (mkLink (MAC l) (LinkType l) s, e)
  else (l, saved).

Definition storeNetworkField (f : string) (v : JSON.value) (n : Network)
           (saved : option error) : Network * option error :=
  if f =? "network_id" then
    let '(s, e) := JSON.storeString v (NetworkId n) saved in
    (mkNetwork s (IP n) (LinkId n) (NetLink n) (NetworkType n), e)
  else if f =? "ip_address" then
    let '(s, e) := JSON.storeString v (IP n) saved in
    (mkNetwork (NetworkId n) s (LinkId n) (NetLink n) (NetworkType n), e)
  else if f =? "link" then
    let '(s, e) := JSON.storeString v (LinkId n) saved in
    (mkNetwork (NetworkId n) (IP n) s (NetLink n) (NetworkType n), e)
  else if f =? "type" then
    let '(s, e) := JSON.storeString v (NetworkType n) saved in
    (mkNetwork (NetworkId n) (IP n) (LinkId n) (NetLink n) s, e)
  else (n, saved).

Definition storeServiceField (f : string) (v : JSON.value) (x : Service)
           (saved : option error) : Service * option error :=
  if f =? "type" then
    let '(s, e) := JSON.storeString v (ServiceType x) saved in
    (mkService s (Address x), e)
  else if f =? "address" then
    let '(s, e) := JSON.storeString v (Address x) saved in
    (mkService (ServiceType x) s, e)
  else (x, saved).

Definition storeLink := JSON.storeStruct LinkFields storeLinkField "openstack.Link".
Definition storeNetwork :=
  JSON.storeStruct NetworkFields storeNetworkField "openstack.Network".
Definition storeService :=
  JSON.storeStruct ServiceFields storeServiceField "openstack.Service".

Definition storeNetworkdataField (f : string) (v : JSON.value) (nd : Networkdata)
           (saved : option error) : Networkdata * option error :=
  if f =? "links" then
    let '(l, e) := JSON.storeSlice zeroLink storeLink "[]openstack.Link"
                     v (Links nd) saved in
    (mkNetworkdata l (Networks nd) (Services nd), e)
  else if f =? "networks" then
    let '(l, e) := JSON.storeSlice zeroNetwork storeNetwork "[]openstack.Network"
                     v (Networks nd) saved in
    (mkNetworkdata (Links nd) l (Services nd), e)
  else if f =? "services" then
    let '(l, e) := JSON.storeSlice zeroService storeService "[]openstack.Service"
                     v (Services nd) saved in
    (mkNetworkdata (Links nd) (Networks nd) l, e)
  else (nd, saved).

(** [json.Unmarshal]-style decoding of a document into [&metadata] and
    [&networkdata]. *)
Definition unmarshalMetadata (v : JSON.value) (metadata : Metadata)
  : Metadata * option error :=
  JSON.storeStruct MetadataFields storeMetadataField "openstack.Metadata"
    v metadata None.

Definition unmarshalNetworkdata (v : JSON.value) (networkdata : Networkdata)
  : Networkdata * option error :=
  JSON.storeStruct NetworkdataFields storeNetworkdataField "openstack.Networkdata"
    v networkdata None.

(** ** Constants *)

Definition metadataUrl : string := "http://169.254.169.254/".
Definition metadataPath : string := "openstack/2012-08-10/meta_data.json".
Definition networkdataPath : string := "openstack/2015-10-15/network_data.json".
Definition configDriveLabel : string := "config-2".

(** ** Files, response bodies and readers *)

Record File : Type := mkFile {
  fileName : string;
  fileContents : JSON.stream
}.

(** A response body: what a decoder finds on it while it is open, and what
    it finds once [Close] has been called on it. *)
Record Body : Type := mkBody {
  bodyContents : JSON.stream;
  bodyAfterClose : JSON.stream
}.

(** The body of a response of [net/http]'s transport: reading it after
    [Close] fails. *)
Definition httpBody (contents : JSON.stream) : Body :=
  mkBody contents (JSON.Broken errReadOnClosedResBody).

Record Response : Type := mkResponse {
  StatusCode : Z;
  Status : string;
  RespBody : Body
}.

(** An [io.Reader]: the nil interface, an [*os.File] (which may be a nil
    pointer inside a non-nil interface), or the body of the response that
    the [id]-th event of the trace received. *)
Inductive Reader : Type :=
| nilReader
| fileReader (f : option File)
| bodyReader (id : nat) (b : Body).

(** ** The environment, the trace and the process state *)

Inductive event : Type :=
| EvStat (path : string)
| EvExec (argv : list string)
| EvTempDir (dir prefix : string)
| EvMount (source target fstype : string) (options : list string)
          (err : option error)
| EvUnmount (target : string)
| EvRemove (path : string)
| EvOpen (path : string)
| EvClose (path : string)
| EvHttpGet (url : string)
| EvBodyClose (id : nat).

(** The answers of the collaborators during one call. *)
Record Env : Type := mkEnv {
  env_Stat : string -> option error;
  env_CombinedOutput : list string -> string * option error;
  env_TempDir : string -> string -> string + error;
  env_Mount : string -> string -> string -> list string -> option error;
  env_Open : string -> File + error;
  env_Get : string -> Response + error
}.

(** The two package-level variables and the trace of the calls made. *)
Record state : Type := mkState {
  metadataCache : option Metadata;
  networkdataCache : option Networkdata;
  trace : list event
}.

Definition M (A : Type) : Type := state -> outcome A * state.

Definition ret {A : Type} (a : A) : M A := fun s => (Ret a, s).

Definition bind {A B : Type} (m : M A) (k : A -> M B) : M B :=
  fun s =>
    match m s with
    | (Ret a, s') => k a s'
    | (Panic, s') => (Panic, s')
    end.

Notation "x <- m ;; k" := (bind m (fun x => k))
  (at level 61, m at next level, right associativity).
Notation "' pat <- m ;; k" := (bind m (fun x => match x with pat => k end))
  (at level 61, pat pattern, m at next level, right associativity).

(** The state after the events [evs] have been added to the trace. *)
Definition after (s : state) (evs : list event) : state :=
  mkState (metadataCache s) (networkdataCache s) (trace s ++ evs)%list.

Definition emit (e : event) : M unit := fun s => (Ret tt, after s [e]).

(** [defer d] in front of the rest of a function body: [d] runs when the
    body is left, by a return or by a panic. *)
Definition defer {A : Type} (d : M unit) (body : M A) : M A :=
  fun s =>
    let '(o, s') := body s in
    let '(_, s'') := d s' in
    (o, s'').

(** *** The collaborators *)

Definition os_Stat (env : Env) (path : string) : M (option error) :=
  _ <- emit (EvStat path);; ret (env_Stat env path).

Definition exec_CombinedOutput (env : Env) (argv : list string)
  : M (string * option error) :=
  _ <- emit (EvExec argv);; ret (env_CombinedOutput env argv).

Definition ioutil_TempDir (env : Env) (dir prefix : string) : M (string + error) :=
  _ <- emit (EvTempDir dir prefix);; ret (env_TempDir env dir prefix).

Definition mounter_Mount (env : Env) (source target fstype : string)
           (options : list string) : M (option error) :=
  let err := env_Mount env source target fstype options in
  _ <- emit (EvMount source target fstype options err);; ret err.

(** The code discards what [Unmount], [os.Remove] and [Close] return. *)
Definition mounter_Unmount (target : string) : M unit := emit (EvUnmount target).

Definition os_Remove (path : string) : M unit := emit (EvRemove path).

Definition os_Open (env : Env) (path : string) : M (File + error) :=
  _ <- emit (EvOpen path);; ret (env_Open env path).

Definition File_Close (f : File) : M unit := emit (EvClose (fileName f)).

(** [http.Get]: the response is identified by the position of the call in
    the trace. *)
Definition http_Get (env : Env) (url : string) : M (nat * Response + error) :=
  fun s =>
    let id := length (trace s) in
    (_ <- emit (EvHttpGet url);;
     ret (match env_Get env url with
          | inl resp => inl (id, resp)
          | inr err => inr err
          end)) s.

Definition Body_Close (id : nat) : M unit := emit (EvBodyClose id).

Definition isBodyClose (id : nat) (e : event) : bool :=
  match e with
  | EvBodyClose id' => Nat.eqb id id'
  | _ => false
  end.

Definition bodyClosed (id : nat) (s : state) : bool :=
  existsb (isBodyClose id) (trace s).

(** What a decoder reading from [r] finds.  A nil interface has no [Read]
    to call: the call panics.  [Read] on a nil [*os.File] returns
    [os.ErrInvalid]. *)
Definition Read (r : Reader) : M JSON.stream :=
  fun s =>
    match r with
    | nilReader => (Panic, s)
    | fileReader None => (Ret (JSON.Broken ErrInvalid), s)
    | fileReader (Some f) => (Ret (fileContents f), s)
    | bodyReader id b =>
        (Ret (if bodyClosed id s then bodyAfterClose b else bodyContents b), s)
    end.

(** [json.NewDecoder(r).Decode(&x)] *)
Definition Decode {T : Type} (unmarshal : JSON.value -> T -> T * option error)
           (r : Reader) (x : T) : M (T * option error) :=
  text <- Read r;;
  match text with
  | JSON.Broken err => ret (x, Some err)
  | JSON.Text v => ret (unmarshal v x)
  end.

(** ** The parsers *)

Definition parseMetadata (r : Reader) : M (option Metadata * option error) :=
  let metadata := zeroMetadata in
  '(metadata, err) <- Decode unmarshalMetadata r metadata;;
  match err with
  | Some err => ret (None, Some err)
  | None =>
      if Uuid metadata =? "" then ret (None, Some ErrBadMetadata)
      else ret (Some metadata, None)
  end.

(** The variables of [parseNetworkdata]: [networkdata], and the variables
    [network] and [link] of the two range clauses.  Each iteration assigns
    a copy of the slice element to the variable of its clause. *)
Record locals : Type := mkLocals {
  v_networkdata : Networkdata;
  v_network : Network;
  v_link : Link
}.

Definition setNetLink (n : Network) (p : option Link) : Network :=
  mkNetwork (NetworkId n) (IP n) (LinkId n) p (NetworkType n).

(** [for _, link := range networkdata.Links { ... }] *)
Fixpoint rangeLinks (links : list Link) (l : locals) : locals :=
  match links with
  | [] => l
  | elem :: rest =>
      let l := mkLocals (v_networkdata l) (v_network l) elem in
      if Id (v_link l) =? LinkId (v_network l) then
        (* network.Link = &link; break *)
        mkLocals (v_networkdata l)
                 (setNetLink (v_network l) (Some (v_link l)))
                 (v_link l)
      else rangeLinks rest l
  end.

(** [for _, network := range networkdata.Networks { ... }] *)
Fixpoint rangeNetworks (networks : list Network) (l : locals) : locals :=
  match networks with
  | [] => l
  | elem :: rest =>
      let l := mkLocals (v_networkdata l) elem (v_link l) in
      let l := rangeLinks (Links (v_networkdata l)) l in
      rangeNetworks rest l
  end.

Definition parseNetworkdata (r : Reader) : M (option Networkdata * option error) :=
  let networkdata := zeroNetworkdata in
  '(networkdata, err) <- Decode unmarshalNetworkdata r networkdata;;
  match err with
  | Some err => ret (None, Some err)
  | None =>
      let l := mkLocals networkdata zeroNetwork zeroLink in
      let l := rangeNetworks (Networks (v_networkdata l)) l in
      ret (Some (v_networkdata l), None)
  end.

Definition parseFullMetadata (mdReader ndReader : Reader)
  : M (option Metadata * option Networkdata * option error) :=
  '(md, err) <- parseMetadata mdReader;;
  match err with
  | Some err => ret (None, None, Some err)
  | None =>
      '(nd, err) <- parseNetworkdata ndReader;;
      (* err is logged *)
      ret (md, nd, None)
  end.

(** ** The two sources *)

(** [strings.TrimSpace], on the white space of ASCII. *)
Definition isSpace (c : ascii) : bool :=
  match N_of_ascii c with
  | 9%N | 10%N | 11%N | 12%N | 13%N | 32%N => true
  | _ => false
  end.

Fixpoint trimLeft (s : string) : string :=
  match s with
  | EmptyString => EmptyString
  | String c s' => if isSpace c then trimLeft s' else s
  end.

Definition reverse (s : string) : string :=
  string_of_list_ascii (rev (list_ascii_of_string s)).

Definition strings_TrimSpace (s : string) : string :=
  reverse (trimLeft (reverse (trimLeft s))).

(** [filepath.Join] of a clean directory path and a clean relative path. *)
Definition filepath_Join (dir rel : string) : string := dir ++ "/" ++ rel.

(** What the sources and [getMetadata] return: a [*Metadata], a
    [*Networkdata] and an [error]. *)
Definition result : Type := option Metadata * option Networkdata * option error.

Definition getMetadataFromConfigDrive (env : Env) : M result :=
  let dev := "/dev/disk/by-label/" ++ configDriveLabel in
  err <- os_Stat env dev;;
  located <-
    (if os_IsNotExist err then
       '(out, err) <- exec_CombinedOutput env
                        ["blkid"; "-l"; "-t"; "LABEL=" ++ configDriveLabel;
                         "-o"; "device"];;
       match err with
       | Some err => ret (inr err)
       | None => ret (inl (strings_TrimSpace out))
       end
     else ret (inl dev));;
  match located with
  | inr err => ret (None, None, Some err)
  | inl dev =>
      tmp <- ioutil_TempDir env "" "configdrive";;
      match tmp with
      | inr err => ret (None, None, Some err)
      | inl mntdir =>
          defer (os_Remove mntdir)
            (err <- mounter_Mount env dev mntdir "iso9660" ["ro"];;
             err <- (match err with
                     | Some _ => mounter_Mount env dev mntdir "vfat" ["ro"]
                     | None => ret None
                     end);;
             match err with
             | Some err => ret (None, None, Some err)
             | None =>
                 defer (mounter_Unmount mntdir)
                   (o <- os_Open env (filepath_Join mntdir metadataPath);;
                    match o with
                    | inr err => ret (None, None, Some err)
                    | inl f =>
                        defer (File_Close f)
                          (o2 <- os_Open env (filepath_Join mntdir networkdataPath);;
                           match o2 with
                           | inr err2 =>
                               (* f2 = nil *)
                               parseFullMetadata (fileReader (Some f)) (fileReader None)
                           | inl f2 =>
                               defer (File_Close f2)
                                 (parseFullMetadata (fileReader (Some f))
                                                    (fileReader (Some f2)))
                           end)
                    end)
             end)
      end
  end.

Definition get (env : Env) (url : string) : M (Reader * option error) :=
  r <- http_Get env url;;
  match r with
  | inr err => ret (nilReader, Some err)
  | inl (id, resp) =>
      defer (Body_Close id)
        (if negb (StatusCode resp =? 200)%Z then
           ret (nilReader,
                Some (Errorf ("Unexpected status code when reading metadata from "
                              ++ url ++ ": " ++ Status resp)))
         else ret (bodyReader id (RespBody resp), None))
  end.

Definition getMetadataFromMetadataService (env : Env) : M result :=
  let url := metadataUrl ++ metadataPath in
  '(mdBody, err) <- get env url;;
  match err with
  | Some err => ret (None, None, Some err)
  | None =>
      let url := metadataUrl ++ networkdataPath in
      '(ndBody, err) <- get env url;;
      (* err is logged *)
      parseFullMetadata mdBody ndBody
  end.

(** ** The cache and [getMetadata] *)

(** [metadataCache = md; networkdataCache = nd] *)
Definition setCaches (md : option Metadata) (nd : option Networkdata) : M unit :=
  fun s => (Ret tt, mkState md nd (trace s)).

(** [return metadataCache, networkdataCache, nil] *)
Definition returnCaches : M result :=
  fun s => (Ret (metadataCache s, networkdataCache s, None), s).

Definition getMetadata (env : Env) : M result :=
  fun s =>
    match metadataCache s with
    | None =>
        (r <- getMetadataFromConfigDrive env;;
         r <- (match r with
               | (_, _, Some _) => getMetadataFromMetadataService env
               | (_, _, None) => ret r
               end);;
         match r with
         | (_, _, Some err) => ret (None, None, Some err)
         | (md, nd, None) => _ <- setCaches md nd;; returnCaches
         end) s
    | Some _ => returnCaches s
    end.

(** The state of the process at its start. *)
Definition initial : state := mkState None None [].

(** Successive calls of [getMetadata], one environment per call; a panic
    ends the process. *)
Fixpoint calls (envs : list Env) (s : state) : list (outcome result) * state :=
  match envs with
  | [] => ([], s)
  | env :: rest =>
      match getMetadata env s with
      | (Panic, s') => ([Panic], s')
      | (Ret r, s') => let '(rs, s'') := calls rest s' in (Ret r :: rs, s'')
      end
  end.

(** ** Documents as the specification describes them *)

(** Lower case, for the letters of ASCII. *)
Definition toLower (c : ascii) : ascii :=
  let n := N_of_ascii c in
  if ((65 <=? n) && (n <=? 90))%N then ascii_of_N (n + 32) else c.

Fixpoint lower (s : string) : string :=
  match s with
  | EmptyString => EmptyString
  | String c s' => String (toLower c) (lower s')
  end.

(** A member names the field [f] when its key is [f], letter case
    ignored. *)
Definition namesField (f key : string) : bool := lower key =? f.

(** The value a document gives to the field [f]: that of its last member
    naming [f]. *)
Fixpoint documentField (f : string) (members : list (string * JSON.value))
  : option JSON.value :=
  match members with
  | [] => None
  | (key, v) :: rest =>
      match documentField f rest with
      | Some v' => Some v'
      | None => if namesField f key then Some v else None
      end
  end.

Definition isTracked (key : string) : bool :=
  existsb (fun f => namesField f key) MetadataFields.

Definition isString (v : JSON.value) : bool :=
  match v with
  | JSON.Str _ => true
  | _ => false
  end.

(** An instance-metadata document of the expected shape: every member that
    names one of the three fields holds a string. *)
Definition wellFormed (members : list (string * JSON.value)) : bool :=
  forallb (fun m => implb (isTracked (fst m)) (isString (snd m))) members.

(** The string a document gives to [f]; [old] when it gives none. *)
Definition stringField (f : string) (members : list (string * JSON.value))
           (old : string) : string :=
  match documentField f members with
  | Some (JSON.Str s) => s
  | _ => old
  end.

(** The example document of the specification. *)
Definition exampleDocument : JSON.value :=
  JSON.Object [("uuid", JSON.Str "abc-123"); ("name", JSON.Str "vm1");
               ("availability_zone", JSON.Str "az1")].

(** The join of the specification (Cross-Referencer): every interface gets
    the first link, in link order, whose id equals its link id, and none
    when no link has that id. *)
Definition firstLink (links : list Link) (id : string) : option Link :=
  find (fun link => Id link =? id) links.

Definition join (interfaces : list Network) (links : list Link) : list Network :=
  map (fun n => setNetLink n (firstLink links (LinkId n))) interfaces.

(** A topology document with one link and one interface attached to it. *)
Definition topologyDocument : JSON.value :=
  JSON.Object
    [("links", JSON.Array
                 [JSON.Object [("id", JSON.Str "tap1");
                               ("type", JSON.Str "ovs");
                               ("ethernet_mac_address", JSON.Str "fa:16:3e:00:00:01")]]);
     ("networks", JSON.Array
                    [JSON.Object [("network_id", JSON.Str "net1");
                                  ("link", JSON.Str "tap1");
                                  ("type", JSON.Str "ipv4_dhcp")]])].

(** The mounts that a sequence of events leaves held, starting from the
    mount points [mounted]: a mount that succeeded holds its mount point
    until it is unmounted. *)
Fixpoint held (evs : list event) (mounted : list string) : list string :=
  match evs with
  | [] => mounted
  | EvMount _ target _ _ None :: rest => held rest (target :: mounted)
  | EvUnmount target :: rest =>
      held rest (filter (fun d => negb (d =? target)) mounted)
  | _ :: rest => held rest mounted
  end.

(** A populated cache holds a record with a non-empty uuid. *)
Definition cacheOK (s : state) : Prop :=
  match metadataCache s with
  | None => True
  | Some m => Uuid m <> ""
  end.

(** The states a process can be in: the initial one, and the state after a
    call of [getMetadata] in a state it can be in. *)
Inductive reachable : state -> Prop :=
| reach_initial : reachable initial
| reach_call env s o s' :
    reachable s -> getMetadata env s = (o, s') -> reachable s'.

(** *** Environments used as examples *)

Definition alias : string := "/dev/disk/by-label/" ++ configDriveLabel.

Definition noDevice : string -> option error :=
  fun path => Some (PathError "stat" path ErrNotExist).

Definition noFile : string -> File + error :=
  fun path => inr (PathError "open" path ErrNotExist).

Definition noNetwork : string -> Response + error :=
  fun url => inr (OtherError "dial tcp 169.254.169.254:80: i/o timeout").

(** A config drive found by blkid, mounted as vfat, with the instance
    metadata file of the example and no network file; no metadata
    service. *)
Definition envConfigDrive : Env :=
  mkEnv noDevice
        (fun _ => ("/dev/sr0 ", None))
        (fun _ _ => inl "/tmp/configdrive042")
        (fun _ _ fstype _ =>
           if fstype =? "vfat" then None else Some (OtherError "wrong fs type"))
        (fun path =>
           if path =? "/tmp/configdrive042/openstack/2012-08-10/meta_data.json"
           then inl (mkFile path (JSON.Text exampleDocument))
           else noFile path)
        noNetwork.

(** No config drive (blkid finds no device) and no metadata service. *)
Definition envNothing : Env :=
  mkEnv noDevice
        (fun _ => ("", Some (OtherError "exit status 2")))
        (fun _ _ => inl "/tmp/configdrive043")
        (fun _ _ _ _ => Some (OtherError "no such device"))
        noFile
        noNetwork.

(** A body that can still be read after [Close]. *)
Definition replayBody (contents : JSON.stream) : Body := mkBody contents contents.

(** No config drive; a metadata service that answers both requests, with
    bodies of kind [body]. *)
Definition envService (body : JSON.stream -> Body) : Env :=
  mkEnv noDevice
        (fun _ => ("", Some (OtherError "exit status 2")))
        (fun _ _ => inl "/tmp/configdrive044")
        (fun _ _ _ _ => Some (OtherError "no such device"))
        noFile
        (fun url =>
           if url =? metadataUrl ++ metadataPath
           then inl (mkResponse 200 "200 OK" (body (JSON.Text exampleDocument)))
           else if url =? metadataUrl ++ networkdataPath
           then inl (mkResponse 200 "200 OK" (body (JSON.Text topologyDocument)))
           else inl (mkResponse 404 "404 Not Found"
                                (body (JSON.Broken (SyntaxError "unexpected end"))))).

(** No config drive; a metadata service that serves the instance metadata
    and answers 404 for the network topology. *)
Definition envNoTopology (body : JSON.stream -> Body) : Env :=
  mkEnv noDevice
        (fun _ => ("", Some (OtherError "exit status 2")))
        (fun _ _ => inl "/tmp/configdrive045")
        (fun _ _ _ _ => Some (OtherError "no such device"))
        noFile
        (fun url =>
           if url =? metadataUrl ++ metadataPath
           then inl (mkResponse 200 "200 OK" (body (JSON.Text exampleDocument)))
           else inl (mkResponse 404 "404 Not Found"
                                (body (JSON.Broken (SyntaxError "unexpected end"))))).

(** The calls that the Config-Drive source makes in [envConfigDrive]. *)
Definition configDriveEvents : list event :=
  [EvStat "/dev/disk/by-label/config-2";
   EvExec ["blkid"; "-l"; "-t"; "LABEL=config-2"; "-o"; "device"];
   EvTempDir "" "configdrive";
   EvMount "/dev/sr0" "/tmp/configdrive042" "iso9660" ["ro"]
           (Some (OtherError "wrong fs type"));
   EvMount "/dev/sr0" "/tmp/configdrive042" "vfat" ["ro"] None;
   EvOpen "/tmp/configdrive042/openstack/2012-08-10/meta_data.json";
   EvOpen "/tmp/configdrive042/openstack/2015-10-15/network_data.json";
   EvClose "/tmp/configdrive042/openstack/2012-08-10/meta_data.json";
   EvUnmount "/tmp/configdrive042";
   EvRemove "/tmp/configdrive042"].

(** A document with members the decoder does not track, and a key in
    another letter case. *)
Definition richDocument : list (string * JSON.value) :=
  [("uuid", JSON.Str "abc-123");
   ("hostname", JSON.Str "vm1.novalocal");
   ("Name", JSON.Str "vm1");
   ("meta", JSON.Object [("role", JSON.Str "node")]);
   ("launch_index", JSON.Number "0");
   ("availability_zone", JSON.Str "az1")].

(** The two shapes of what a source returns: an error and nothing else,
    or a record with a non-empty uuid and no error. *)
Definition failed (r : result) : Prop := exists err, r = (None, None, Some err).

Definition succeeded (r : result) : Prop :=
  exists m nd, r = (Some m, nd, None) /\ Uuid m <> "".

(** The characters of a field name for which folding is plain letter
    case: the lower-case letters other than k and s, and the underscore. *)
Definition plain (c : ascii) : bool :=
  existsb (Ascii.eqb c) (list_ascii_of_string "abcdefghijlmnopqrtuvwxyz_").

(** The comparison of one byte [tb] of a key with the byte [sb] of a
    field name in [JSON.equalFold], the Kelvin sign and the long s apart. *)
Definition foldChar (sb tb : ascii) : bool :=
  if (N_of_ascii tb <? 128)%N
  then Ascii.eqb sb tb || (JSON.isLetter sb && (JSON.upper sb =? JSON.upper tb)%N)
  else false.

(** The events with which a run of each source starts, and the number of
    runs of the Config-Drive source and of the Metadata-Service source
    that a sequence of events holds. *)
Definition startsConfigDrive (e : event) : bool :=
  match e with
  | EvStat path => path =? "/dev/disk/by-label/" ++ configDriveLabel
  | _ => false
  end.

Definition startsService (e : event) : bool :=
  match e with
  | EvHttpGet url => url =? metadataUrl ++ metadataPath
  | _ => false
  end.

Definition runs (evs : list event) : nat * nat :=
  (length (filter startsConfigDrive evs), length (filter startsService evs)).

(** *** Descriptions used in further properties *)

(** The command line with which the Config-Drive source runs blkid. *)
Definition blkidArgs : list string :=
  ["blkid"; "-l"; "-t"; "LABEL=" ++ configDriveLabel; "-o"; "device"].

(** The device that the environment makes the Config-Drive source use,
    when there is one: the alias if [os.Stat] does not report it missing,
    otherwise the trimmed output of a successful blkid. *)
Definition deviceOf (env : Env) : option string :=
  if os_IsNotExist (env_Stat env alias) then
    match env_CombinedOutput env blkidArgs with
    | (out, None) => Some (strings_TrimSpace out)
    | (_, Some _) => None
    end
  else Some alias.

(** Events of the operating system and events of the network. *)
Definition isHttpEvent (e : event) : Prop :=
  match e with
  | EvHttpGet _ | EvBodyClose _ => True
  | _ => False
  end.


Definition isMount (e : event) : Prop :=
  match e with
  | EvMount _ _ _ _ _ => True
  | _ => False
  end.

Definition isOpen (e : event) : Prop :=
  match e with
  | EvOpen _ => True
  | _ => False
  end.


(** The JSON objects that describe a link, an interface and a service,
    and the topology document that lists them. *)
Definition linkDocument (l : Link) : JSON.value :=
  JSON.Object [("id", JSON.Str (Id l));
               ("type", JSON.Str (LinkType l));
               ("ethernet_mac_address", JSON.Str (MAC l))].

Definition networkDocument (n : Network) : JSON.value :=
  JSON.Object [("network_id", JSON.Str (NetworkId n));
               ("type", JSON.Str (NetworkType n));
               ("link", JSON.Str (LinkId n));
               ("ip_address", JSON.Str (IP n))].

Definition serviceDocument (x : Service) : JSON.value :=
  JSON.Object [("type", JSON.Str (ServiceType x));
               ("address", JSON.Str (Address x))].

Definition topologyOf (links : list Link) (networks : list Network)
           (services : list Service) : JSON.value :=
  JSON.Object [("services", JSON.Array (map serviceDocument services));
               ("networks", JSON.Array (map networkDocument networks));
               ("links", JSON.Array (map linkDocument links))].

Definition isNull (v : JSON.value) : bool :=
  match v with
  | JSON.Null => true
  | _ => false
  end.

(** A member that names one of the three fields of the instance metadata
    and holds neither a string nor null. *)
Definition illTyped (m : string * JSON.value) : bool :=
  isTracked (fst m) && negb (isString (snd m) || isNull (snd m)).

(** Whether the environment lets [dev] be mounted on [dir], as iso9660 or,
    failing that, as vfat. *)
Definition mountable (env : Env) (dev dir : string) : bool :=
  match env_Mount env dev dir "iso9660" ["ro"] with
  | None => true
  | Some _ =>
      match env_Mount env dev dir "vfat" ["ro"] with
      | None => true
      | Some _ => false
      end
  end.

(** The calls that come before any mount attempt. *)
Definition isEarly (e : event) : Prop :=
  match e with
  | EvStat _ | EvExec _ | EvTempDir _ _ => True
  | _ => False
  end.

Definition isOpenB (e : event) : bool :=
  match e with
  | EvOpen _ => true
  | _ => false
  end.


(** The device alias is there: a config drive that mounts as iso9660 and
    holds the two files [md] and [nd]. *)
Definition envDrive (md nd : string -> File + error)
           (mount : string -> option error) : Env :=
  mkEnv (fun _ => None)
        (fun _ => ("", Some (OtherError "exit status 2")))
        (fun _ _ => inl "/tmp/configdrive046")
        (fun _ _ fstype _ => mount fstype)
        (fun path =>
           if path =? "/tmp/configdrive046/openstack/2012-08-10/meta_data.json"
           then md path
           else if path =? "/tmp/configdrive046/openstack/2015-10-15/network_data.json"
           then nd path
           else noFile path)
        noNetwork.

Definition instanceFile : string -> File + error :=
  fun path => inl (mkFile path (JSON.Text exampleDocument)).

Definition topologyFile : string -> File + error :=
  fun path => inl (mkFile path (JSON.Text topologyDocument)).

Definition brokenFile : string -> File + error :=
  fun path => inl (mkFile path (JSON.Broken (SyntaxError "invalid character '<'"))).

(** The temporary directory cannot be created. *)
Definition envNoTempDir : Env :=
  mkEnv (fun _ => None)
        (fun _ => ("", Some (OtherError "exit status 2")))
        (fun _ _ => inr (OtherError "mkdir /tmp/configdrive047: no space left on device"))
        (fun _ _ _ _ => None)
        noFile
        noNetwork.

(** The two cache variables go together: no topology is cached without a
    record, and a cached topology has no resolved link. *)
Definition cachePaired (s : state) : Prop :=
  (metadataCache s = None -> networkdataCache s = None)
  /\ forall nd, networkdataCache s = Some nd ->
                Forall (fun n => NetLink n = None) (Networks nd).

(** * Properties *)

(** ** Decoding the instance metadata *)

Lemma findField_Metadata key f :
  JSON.findField MetadataFields key None = Some f ->
  f = "uuid" \/ f = "name" \/ f = "availability_zone".
Proof.
  unfold MetadataFields. cbn [JSON.findField].
  destruct ("uuid" =? key); [intros H; inversion H; auto|].
  destruct ("name" =? key); [intros H; inversion H; auto|].
  destruct ("availability_zone" =? key); [intros H; inversion H; auto|].
  destruct (JSON.equalFold "uuid" key); [intros H; inversion H; auto|].
  destruct (JSON.equalFold "name" key); [intros H; inversion H; auto|].
  destruct (JSON.equalFold "availability_zone" key); intros H; inversion H; auto.
Qed.

(** *** Key matching of the decoder and names of fields

    For a field name made of plain characters, the folding of the decoder
    is equality up to letter case. *)

Lemma plain_char sb :
  plain sb = true ->
  (JSON.upper sb =? 83)%N = false /\ (JSON.upper sb =? 75)%N = false /\
  forall tb, foldChar sb tb = Ascii.eqb (toLower tb) sb.
Proof.
  destruct sb as [[] [] [] [] [] [] [] []]; intros H; try discriminate H; clear H;
    (split; [reflexivity|split; [reflexivity|]]);
    intros [[] [] [] [] [] [] [] []]; reflexivity.
Qed.

Lemma equalFold_plain s :
  forallb plain (list_ascii_of_string s) = true ->
  forall t, JSON.equalFold s t = (lower t =? s).
Proof.
  induction s as [|sb s' IH]; intros Hp t.
  - destruct t; reflexivity.
  - cbn [list_ascii_of_string forallb] in Hp. apply andb_prop in Hp.
    destruct Hp as [Hsb Hs'].
    destruct (plain_char sb Hsb) as (H83 & H75 & Hc).
    destruct t as [|tb t']; [reflexivity|].
    cbn [JSON.equalFold lower String.eqb]. rewrite H83, H75.
    rewrite <- Hc, <- (IH Hs' t'). unfold foldChar.
    destruct (N_of_ascii tb <? 128)%N; reflexivity.
Qed.

(** The field of the instance metadata that the decoder assigns a key to
    is the one the key names. *)
Lemma findField_Metadata_lower key :
  JSON.findField MetadataFields key None =
  if lower key =? "uuid" then Some "uuid"
  else if lower key =? "name" then Some "name"
  else if lower key =? "availability_zone" then Some "availability_zone"
  else None.
Proof.
  unfold MetadataFields. cbn [JSON.findField].
  rewrite !equalFold_plain by reflexivity.
  destruct ("uuid" =? key) eqn:E1; [apply String.eqb_eq in E1; subst; reflexivity|].
  destruct ("name" =? key) eqn:E2; [apply String.eqb_eq in E2; subst; reflexivity|].
  destruct ("availability_zone" =? key) eqn:E3;
    [apply String.eqb_eq in E3; subst; reflexivity|].
  destruct (lower key =? "uuid"); [reflexivity|].
  destruct (lower key =? "name"); [reflexivity|].
  destruct (lower key =? "availability_zone"); reflexivity.
Qed.

Lemma namesField_findField g key :
  In g MetadataFields ->
  namesField g key =
  match JSON.findField MetadataFields key None with
  | Some f => f =? g
  | None => false
  end.
Proof.
  intros Hg. rewrite findField_Metadata_lower. unfold namesField.
  destruct (lower key =? "uuid") eqn:E1;
    [apply String.eqb_eq in E1; rewrite E1; reflexivity|].
  destruct (lower key =? "name") eqn:E2;
    [apply String.eqb_eq in E2; rewrite E2; reflexivity|].
  destruct (lower key =? "availability_zone") eqn:E3;
    [apply String.eqb_eq in E3; rewrite E3; reflexivity|].
  destruct Hg as [<- | [<- | [<- | []]]]; assumption.
Qed.

Lemma isTracked_findField key :
  isTracked key =
  match JSON.findField MetadataFields key None with
  | Some _ => true
  | None => false
  end.
Proof.
  rewrite findField_Metadata_lower. unfold isTracked, namesField, MetadataFields.
  cbn [existsb].
  destruct (lower key =? "uuid"); [reflexivity|].
  destruct (lower key =? "name"); [reflexivity|].
  destruct (lower key =? "availability_zone"); reflexivity.
Qed.

Lemma uuid_tracked : In "uuid" MetadataFields.
Proof. cbn; auto. Qed.

Lemma name_tracked : In "name" MetadataFields.
Proof. cbn; auto. Qed.

Lemma zone_tracked : In "availability_zone" MetadataFields.
Proof. cbn; auto. Qed.

Lemma documentField_string f members v :
  In f MetadataFields ->
  wellFormed members = true ->
  documentField f members = Some v ->
  isString v = true.
Proof.
  intros Hf.
  induction members as [|[key w] rest IH]; simpl; intros Hwf H.
  - discriminate.
  - apply andb_prop in Hwf. destruct Hwf as [Hm Hrest].
    destruct (documentField f rest) as [v'|] eqn:E.
    + inversion H; subst. now apply IH.
    + rewrite (namesField_findField f key Hf) in H. rewrite isTracked_findField in Hm.
      destruct (JSON.findField MetadataFields key None); [|discriminate].
      destruct (s =? f); inversion H; subst. exact Hm.
Qed.

Lemma object_Metadata members : forall x saved,
  wellFormed members = true ->
  JSON.object MetadataFields storeMetadataField members x saved =
  (mkMetadata (stringField "uuid" members (Uuid x))
              (stringField "name" members (Name x))
              (stringField "availability_zone" members (AvailabilityZone x)),
   saved).
Proof.
  induction members as [|[key v] rest IH]; intros x saved Hwf.
  - destruct x; reflexivity.
  - simpl in Hwf. apply andb_prop in Hwf. destruct Hwf as [Hm Hrest].
    cbn [JSON.object]. unfold stringField. cbn [documentField].
    rewrite (namesField_findField _ key uuid_tracked),
            (namesField_findField _ key name_tracked),
            (namesField_findField _ key zone_tracked).
    rewrite isTracked_findField in Hm.
    destruct (JSON.findField MetadataFields key None) as [f|] eqn:Ef.
    + destruct v; try discriminate Hm.
      assert (Hs : forall g, In g MetadataFields ->
                             match documentField g rest with
                             | Some (JSON.Str s0) => Some (JSON.Str s0)
                             | Some _ => None
                             | None => None
                             end = documentField g rest).
      { intros g Hg. destruct (documentField g rest) as [w|] eqn:Eg; [|reflexivity].
        pose proof (documentField_string _ _ _ Hg Hrest Eg) as Hw.
        destruct w; try discriminate Hw; reflexivity. }
      pose proof (Hs _ uuid_tracked) as Hu.
      pose proof (Hs _ name_tracked) as Hn.
      pose proof (Hs _ zone_tracked) as Hz.
      destruct (findField_Metadata _ _ Ef) as [-> | [-> | ->]];
        cbv [storeMetadataField JSON.storeString];
        cbn [String.eqb Ascii.eqb Bool.eqb];
        rewrite IH by assumption; unfold stringField; cbn [Uuid Name AvailabilityZone];
        f_equal; f_equal;
        destruct (documentField "uuid" rest) as [[]|]; try discriminate Hu;
        destruct (documentField "name" rest) as [[]|]; try discriminate Hn;
        destruct (documentField "availability_zone" rest) as [[]|]; try discriminate Hz;
        reflexivity.
    + rewrite IH by assumption. unfold stringField.
      f_equal; f_equal; destruct (documentField _ rest) as [[]|]; reflexivity.
Qed.

Lemma Read_fst r s : Read r s = (fst (Read r s), s).
Proof. destruct r as [|[f|]|id b]; reflexivity. Qed.

Lemma Decode_eq {T : Type} (u : JSON.value -> T -> T * option error) r x s :
  Decode u r x s =
  (match fst (Read r s) with
   | Panic => Panic
   | Ret (JSON.Broken err) => Ret (x, Some err)
   | Ret (JSON.Text v) => Ret (u v x)
   end, s).
Proof.
  unfold Decode, bind. rewrite (Read_fst r s).
  destruct (fst (Read r s)) as [[v|err]|]; reflexivity.
Qed.

(** [parseMetadata] on a reader that delivers a well-formed object. *)
Lemma parseMetadata_object r s members :
  Read r s = (Ret (JSON.Text (JSON.Object members)), s) ->
  wellFormed members = true ->
  parseMetadata r s =
  (if stringField "uuid" members "" =? ""
   then Ret (None, Some ErrBadMetadata)
   else Ret (Some (mkMetadata (stringField "uuid" members "")
                              (stringField "name" members "")
                              (stringField "availability_zone" members "")),
             None),
   s).
Proof.
  intros HRead Hwf.
  unfold parseMetadata, Decode, bind. rewrite HRead.
  unfold ret, unmarshalMetadata, JSON.storeStruct.
  rewrite object_Metadata by assumption. cbn [zeroMetadata Uuid Name AvailabilityZone].
  destruct (stringField "uuid" members "" =? ""); reflexivity.
Qed.

(** C8.  A reader that delivers an instance-metadata document (a JSON
    object whose members naming uuid, name and availability_zone hold
    strings; other members are free) with a non-empty uuid makes
    [parseMetadata] succeed, and the record returned carries the uuid, the
    name and the availability zone of the document; the example document
    of the specification decodes to "abc-123", "vm1", "az1". *)
Theorem parseMetadata_reproduces_fields :
  (forall r s members,
      Read r s = (Ret (JSON.Text (JSON.Object members)), s) ->
      wellFormed members = true ->
      stringField "uuid" members "" <> "" ->
      parseMetadata r s =
      (Ret (Some (mkMetadata (stringField "uuid" members "")
                             (stringField "name" members "")
                             (stringField "availability_zone" members "")),
            None), s))
  /\ (forall r s,
         Read r s = (Ret (JSON.Text exampleDocument), s) ->
         parseMetadata r s =
         (Ret (Some (mkMetadata "abc-123" "vm1" "az1"), None), s)).
Proof.
  split.
  - intros r s members HRead Hwf Hne.
    rewrite (parseMetadata_object _ _ _ HRead Hwf).
    apply String.eqb_neq in Hne. rewrite Hne. reflexivity.
  - intros r s HRead.
    rewrite (parseMetadata_object _ _ _ HRead eq_refl). reflexivity.
Qed.

Lemma parseMetadata_reproduces_fields_witness :
  wellFormed richDocument = true /\
  stringField "uuid" richDocument "" <> "" /\
  parseMetadata
    (fileReader (Some (mkFile "meta_data.json" (JSON.Text (JSON.Object richDocument)))))
    initial
  = (Ret (Some (mkMetadata "abc-123" "vm1" "az1"), None), initial).
Proof.
  split; [reflexivity|].
  split; [discriminate|].
  apply (proj1 parseMetadata_reproduces_fields
           (fileReader (Some (mkFile "meta_data.json"
                                     (JSON.Text (JSON.Object richDocument)))))
           initial richDocument).
  - reflexivity.
  - reflexivity.
  - discriminate.
Defined.

(** Without a member naming uuid the decoder leaves [Uuid] as it is. *)
Lemma object_uuid_absent members : forall x saved,
  documentField "uuid" members = None ->
  Uuid (fst (JSON.object MetadataFields storeMetadataField members x saved)) = Uuid x.
Proof.
  induction members as [|[key v] rest IH]; intros x saved H.
  - reflexivity.
  - cbn [documentField] in H. cbn [JSON.object].
    destruct (documentField "uuid" rest) as [v'|] eqn:E; [discriminate|].
    rewrite (namesField_findField _ key uuid_tracked) in H.
    destruct (JSON.findField MetadataFields key None) as [f|] eqn:Ef; [|now apply IH].
    destruct (findField_Metadata _ _ Ef) as [-> | [-> | ->]];
      [discriminate H| |];
      cbv [storeMetadataField]; cbn [String.eqb Ascii.eqb Bool.eqb];
      match goal with
      | |- context [JSON.storeString ?a ?b ?c] => destruct (JSON.storeString a b c)
      end; rewrite IH by reflexivity; reflexivity.
Qed.

(** The decoder leaves in [Uuid] the string of the last member naming uuid. *)
Lemma object_uuid_last members u : forall x saved,
  documentField "uuid" members = Some (JSON.Str u) ->
  Uuid (fst (JSON.object MetadataFields storeMetadataField members x saved)) = u.
Proof.
  induction members as [|[key v] rest IH]; intros x saved H.
  - discriminate.
  - cbn [documentField] in H. cbn [JSON.object].
    destruct (documentField "uuid" rest) as [v'|] eqn:E.
    + destruct (JSON.findField MetadataFields key None) as [f|]; [|now apply IH].
      destruct (storeMetadataField f v x saved). now apply IH.
    + rewrite (namesField_findField _ key uuid_tracked) in H.
      destruct (JSON.findField MetadataFields key None) as [f|] eqn:Ef; [|discriminate].
      destruct (findField_Metadata _ _ Ef) as [-> | [-> | ->]]; try discriminate H.
      cbn in H. inversion H; subst v.
      cbv [storeMetadataField JSON.storeString]; cbn [String.eqb Ascii.eqb Bool.eqb].
      rewrite object_uuid_absent by exact E. reflexivity.
Qed.

(** C9.  A reader that delivers an instance-metadata document (a JSON
    object) whose uuid is missing or empty makes [parseMetadata] fail and
    return no record, whatever the other members are; when the members
    naming the three fields are well formed, the error is
    [ErrBadMetadata]. *)
Theorem parseMetadata_missing_identity r s members :
  Read r s = (Ret (JSON.Text (JSON.Object members)), s) ->
  documentField "uuid" members = None \/
  documentField "uuid" members = Some (JSON.Str "") ->
  (exists err, parseMetadata r s = (Ret (None, Some err), s))
  /\ (wellFormed members = true ->
      parseMetadata r s = (Ret (None, Some ErrBadMetadata), s)).
Proof.
  intros HRead Hid. split.
  - unfold parseMetadata, bind. rewrite Decode_eq, HRead. cbn [fst ret].
    unfold unmarshalMetadata, JSON.storeStruct.
    assert (Hu : Uuid (fst (JSON.object MetadataFields storeMetadataField
                                        members zeroMetadata None)) = "").
    { destruct Hid as [H | H].
      - now rewrite object_uuid_absent.
      - now apply object_uuid_last. }
    destruct (JSON.object MetadataFields storeMetadataField members zeroMetadata None)
      as [m [err|]].
    + now exists err.
    + cbn [fst] in Hu. rewrite Hu. now exists ErrBadMetadata.
  - intros Hwf. rewrite (parseMetadata_object _ _ _ HRead Hwf).
    unfold stringField at 1.
    destruct Hid as [-> | ->]; reflexivity.
Qed.

Lemma parseMetadata_missing_identity_witness :
  parseMetadata
    (fileReader (Some (mkFile "meta_data.json"
                              (JSON.Text (JSON.Object [("name", JSON.Str "vm1")])))))
    initial
  = (Ret (None, Some ErrBadMetadata), initial)
  /\
  parseMetadata
    (fileReader (Some (mkFile "meta_data.json"
                              (JSON.Text (JSON.Object [("uuid", JSON.Str "");
                                                       ("name", JSON.Str "vm1")])))))
    initial
  = (Ret (None, Some ErrBadMetadata), initial).
Proof.
  split.
  - apply (proj2 (parseMetadata_missing_identity
                    (fileReader (Some (mkFile "meta_data.json"
                                              (JSON.Text (JSON.Object
                                                            [("name", JSON.Str "vm1")])))))
                    initial [("name", JSON.Str "vm1")]
                    eq_refl (or_introl eq_refl))).
    reflexivity.
  - apply (proj2 (parseMetadata_missing_identity
                    (fileReader (Some (mkFile "meta_data.json"
                                              (JSON.Text (JSON.Object
                                                            [("uuid", JSON.Str "");
                                                             ("name", JSON.Str "vm1")])))))
                    initial [("uuid", JSON.Str ""); ("name", JSON.Str "vm1")]
                    eq_refl (or_intror eq_refl))).
    reflexivity.
Defined.

(** ** The parsers leave the state alone *)

Lemma parseMetadata_cases r s :
  exists o, parseMetadata r s = (o, s) /\
            (o = Panic \/ (exists err, o = Ret (None, Some err)) \/
             (exists m, o = Ret (Some m, None) /\ Uuid m <> "")).
Proof.
  unfold parseMetadata, bind. rewrite Decode_eq.
  destruct (fst (Read r s)) as [[v|err]|].
  - destruct (unmarshalMetadata v zeroMetadata) as [m [err|]].
    + eexists; split; [reflexivity|]. right; left; eauto.
    + destruct (Uuid m =? "") eqn:E.
      * eexists; split; [reflexivity|]. right; left; eauto.
      * eexists; split; [reflexivity|]. right; right.
        exists m. split; [reflexivity|]. now apply String.eqb_neq.
  - eexists; split; [reflexivity|]. right; left; eauto.
  - eexists; split; [reflexivity|]. now left.
Qed.

Lemma parseNetworkdata_state r s :
  exists o, parseNetworkdata r s = (o, s) /\
            (o = Panic -> fst (Read r s) = Panic).
Proof.
  unfold parseNetworkdata, bind. rewrite Decode_eq.
  destruct (fst (Read r s)) as [[v|err]|].
  - destruct (unmarshalNetworkdata v zeroNetworkdata) as [nd [err|]];
      eexists; (split; [reflexivity|discriminate]).
  - eexists; split; [reflexivity|discriminate].
  - eexists; split; reflexivity.
Qed.

Lemma parseFullMetadata_cases mdR ndR s :
  exists o, parseFullMetadata mdR ndR s = (o, s) /\
            (o = Panic \/ exists r, o = Ret r /\ (failed r \/ succeeded r)).
Proof.
  unfold parseFullMetadata, bind.
  destruct (parseMetadata_cases mdR s) as [o [-> [-> | [[err ->] | [m [-> Hm]]]]]].
  - eexists; split; [reflexivity|now left].
  - eexists; split; [reflexivity|]. right. eexists; split; [reflexivity|].
    left. now exists err.
  - destruct (parseNetworkdata_state ndR s) as [o [-> _]].
    destruct o as [[nd err]|].
    + eexists; split; [reflexivity|]. right. eexists; split; [reflexivity|].
      right. now exists m, nd.
    + eexists; split; [reflexivity|now left].
Qed.

(** Reading files neither panics nor depends on the state. *)
Lemma parseFullMetadata_files f f2 :
  exists r, (forall s, parseFullMetadata (fileReader f) (fileReader f2) s = (Ret r, s))
            /\ (failed r \/ succeeded r).
Proof.
  assert (Hs : forall s, parseFullMetadata (fileReader f) (fileReader f2) s =
                         (fst (parseFullMetadata (fileReader f) (fileReader f2) initial), s)).
  { intros s. unfold parseFullMetadata, parseMetadata, parseNetworkdata, bind.
    rewrite !Decode_eq.
    replace (fst (Read (fileReader f) s)) with (fst (Read (fileReader f) initial))
      by (destruct f; reflexivity).
    destruct (fst (Read (fileReader f) initial)) as [[v|err]|]; cbn [ret].
    - destruct (unmarshalMetadata v zeroMetadata) as [m [err|]]; [reflexivity|].
      destruct (Uuid m =? ""); [reflexivity|].
      cbn [ret]. rewrite !Decode_eq.
      replace (fst (Read (fileReader f2) s)) with (fst (Read (fileReader f2) initial))
        by (destruct f2; reflexivity).
      destruct (fst (Read (fileReader f2) initial)) as [[v2|err2]|]; cbn [ret].
      + destruct (unmarshalNetworkdata v2 zeroNetworkdata) as [nd [err|]]; reflexivity.
      + reflexivity.
      + reflexivity.
    - reflexivity.
    - reflexivity. }
  destruct (parseFullMetadata_cases (fileReader f) (fileReader f2) initial)
    as [o [Ho [-> | [r [-> Hr]]]]].
  - exfalso. revert Ho.
    unfold parseFullMetadata, parseMetadata, parseNetworkdata, bind.
    rewrite !Decode_eq.
    destruct f as [f|]; cbn [Read fst].
    + destruct (fileContents f) as [v|err]; cbn [ret]; [|discriminate].
      destruct (unmarshalMetadata v zeroMetadata) as [m [err|]]; [discriminate|].
      destruct (Uuid m =? ""); [discriminate|].
      cbn [ret]. rewrite !Decode_eq.
      destruct f2 as [f2|]; cbn [Read fst].
      * destruct (fileContents f2) as [v2|err2]; cbn [ret]; [|discriminate].
        destruct (unmarshalNetworkdata v2 zeroNetworkdata) as [nd [err|]]; discriminate.
      * discriminate.
    + discriminate.
  - exists r. split; [|exact Hr].
    intros s. rewrite Hs, Ho. reflexivity.
Qed.

(** ** The join of interfaces and links *)

Lemma rangeLinks_networkdata links : forall l,
  v_networkdata (rangeLinks links l) = v_networkdata l.
Proof.
  induction links as [|elem rest IH]; intros l; simpl.
  - reflexivity.
  - destruct (Id elem =? LinkId (v_network l)); [reflexivity|].
    now rewrite IH.
Qed.

(** The inner loop resolves the link in the variable [network]. *)
Lemma rangeLinks_network links : forall l,
  v_network (rangeLinks links l) =
  match firstLink links (LinkId (v_network l)) with
  | Some link => setNetLink (v_network l) (Some link)
  | None => v_network l
  end.
Proof.
  induction links as [|elem rest IH]; intros l; simpl.
  - reflexivity.
  - destruct (Id elem =? LinkId (v_network l)); [reflexivity|].
    now rewrite IH.
Qed.

(** The outer loop never writes to [networkdata]. *)
Lemma rangeNetworks_networkdata networks : forall l,
  v_networkdata (rangeNetworks networks l) = v_networkdata l.
Proof.
  induction networks as [|elem rest IH]; intros l; simpl.
  - reflexivity.
  - now rewrite IH, rangeLinks_networkdata.
Qed.

Lemma object_invariant {T : Type} (P : T -> Prop) fields
      (store : string -> JSON.value -> T -> option error -> T * option error) :
  (forall f v x saved, P x -> P (fst (store f v x saved))) ->
  forall members x saved, P x -> P (fst (JSON.object fields store members x saved)).
Proof.
  intros Hstore. induction members as [|[key v] rest IH]; intros x saved Hx; simpl.
  - exact Hx.
  - destruct (JSON.findField fields key None) as [f|]; [|now apply IH].
    specialize (Hstore f v x saved Hx).
    destruct (store f v x saved) as [x' saved']. now apply IH.
Qed.

Lemma array_Forall {T : Type} (P : T -> Prop) (zero : T)
      (storeElem : JSON.value -> T -> option error -> T * option error) :
  (forall v saved, P (fst (storeElem v zero saved))) ->
  forall elems saved, Forall P (fst (JSON.array zero storeElem elems saved)).
Proof.
  intros Hstore. induction elems as [|v rest IH]; intros saved; simpl.
  - constructor.
  - specialize (Hstore v saved).
    destruct (storeElem v zero saved) as [x saved'].
    specialize (IH saved').
    destruct (JSON.array zero storeElem rest saved') as [xs saved''].
    constructor; assumption.
Qed.

Lemma storeNetwork_NetLink v saved :
  NetLink (fst (storeNetwork v zeroNetwork saved)) = None.
Proof.
  unfold storeNetwork, JSON.storeStruct.
  destruct v; try reflexivity.
  apply (object_invariant (fun n => NetLink n = None)); [|reflexivity].
  intros f v x saved0 Hx. unfold storeNetworkField.
  repeat match goal with
         | |- context [if ?b then _ else _] => destruct b
         | |- context [JSON.storeString ?a ?b ?c] => destruct (JSON.storeString a b c)
         end; exact Hx.
Qed.

(** Decoding never sets [Network.Link]. *)
Lemma unmarshalNetworkdata_NetLink v :
  Forall (fun n => NetLink n = None) (Networks (fst (unmarshalNetworkdata v zeroNetworkdata))).
Proof.
  unfold unmarshalNetworkdata, JSON.storeStruct.
  destruct v; try (constructor).
  apply (object_invariant (fun nd => Forall (fun n => NetLink n = None) (Networks nd)));
    [|constructor].
  intros f v x saved Hx. unfold storeNetworkdataField.
  destruct (f =? "links").
  { destruct (JSON.storeSlice zeroLink storeLink "[]openstack.Link" v (Links x) saved).
    exact Hx. }
  destruct (f =? "networks").
  { unfold JSON.storeSlice. destruct v; try (simpl; first [exact Hx | constructor]).
    pose proof (array_Forall (fun n => NetLink n = None) zeroNetwork storeNetwork
                             storeNetwork_NetLink elems saved) as H.
    destruct (JSON.array zeroNetwork storeNetwork elems saved). exact H. }
  destruct (f =? "services").
  { destruct (JSON.storeSlice zeroService storeService "[]openstack.Service" v
                              (Services x) saved).
    exact Hx. }
  exact Hx.
Qed.

(** Whatever the document, no interface of the topology returned has its
    link resolved. *)
Lemma parseNetworkdata_NetLink r s nd err s' :
  parseNetworkdata r s = (Ret (Some nd, err), s') ->
  Forall (fun n => NetLink n = None) (Networks nd).
Proof.
  unfold parseNetworkdata, bind. rewrite Decode_eq.
  destruct (fst (Read r s)) as [[v|e]|]; cbn [ret]; try discriminate.
  pose proof (unmarshalNetworkdata_NetLink v) as H.
  destruct (unmarshalNetworkdata v zeroNetworkdata) as [networkdata [e|]];
    cbn [ret]; intros E; inversion E; subst.
  rewrite rangeNetworks_networkdata. exact H.
Qed.

(** C1.  On a topology document with the link "tap1" and one interface
    whose link id is "tap1", [parseNetworkdata] succeeds and returns the
    interface with its link unresolved, where the join of the
    specification attaches the link.  Whatever the document, no interface
    of a topology that [parseNetworkdata] returns has its link resolved. *)
Theorem parseNetworkdata_link_unresolved :
  (forall s,
      let link := mkLink "fa:16:3e:00:00:01" "ovs" "tap1" in
      let n := mkNetwork "net1" "" "tap1" None "ipv4_dhcp" in
      parseNetworkdata
        (fileReader (Some (mkFile "network_data.json" (JSON.Text topologyDocument)))) s
      = (Ret (Some (mkNetworkdata [link] [n] []), None), s)
      /\ LinkId n = Id link
      /\ join [n] [link] = [setNetLink n (Some link)])
  /\ (forall r s nd err s',
         parseNetworkdata r s = (Ret (Some nd, err), s') ->
         Forall (fun n => NetLink n = None) (Networks nd)).
Proof.
  split.
  - intros s. repeat split.
  - exact parseNetworkdata_NetLink.
Qed.

(** ** The Config-Drive source *)

Arguments filepath_Join : simpl never.
Arguments strings_TrimSpace : simpl never.
Arguments parseFullMetadata : simpl never.

Lemma after_after s evs evs' : after (after s evs) evs' = after s (evs ++ evs')%list.
Proof. unfold after. cbn [metadataCache networkdataCache trace]. now rewrite app_assoc. Qed.

Ltac run :=
  cbv beta iota delta
      [bind ret defer os_Stat exec_CombinedOutput ioutil_TempDir mounter_Mount
       mounter_Unmount os_Remove os_Open File_Close emit];
  rewrite ?after_after; cbn [app].

Ltac cd_step :=
  match goal with
  | |- context [os_IsNotExist (env_Stat ?e ?p)] =>
      destruct (os_IsNotExist (env_Stat e p)) eqn:?
  | |- context [env_CombinedOutput ?e ?a] =>
      destruct (env_CombinedOutput e a) as [? [?|]] eqn:?
  | |- context [env_TempDir ?e ?a ?b] =>
      destruct (env_TempDir e a b) as [?|?] eqn:?
  | |- context [env_Mount ?e ?a ?b "iso9660" ?d] =>
      destruct (env_Mount e a b "iso9660" d) as [?|] eqn:?
  | |- context [env_Mount ?e ?a ?b "vfat" ?d] =>
      destruct (env_Mount e a b "vfat" d) as [?|] eqn:?
  | |- context [env_Open ?e (filepath_Join ?d metadataPath)] =>
      destruct (env_Open e (filepath_Join d metadataPath)) as [?|?] eqn:?
  | |- context [env_Open ?e (filepath_Join ?d networkdataPath)] =>
      destruct (env_Open e (filepath_Join d networkdataPath)) as [?|?] eqn:?
  | |- context [parseFullMetadata (fileReader ?f) (fileReader ?f2) _] =>
      let r := fresh "r" in
      let H := fresh "Hparse" in
      let Hr := fresh "Hr" in
      destruct (parseFullMetadata_files f f2) as [r [H Hr]];
      rewrite !H
  end; run.

Ltac split_In H :=
  repeat match type of H with
         | _ \/ _ => destruct H as [H | H]; [try discriminate H|]
         | False => destruct H
         end.

(** What a run of the Config-Drive source does: it returns (it does not
    panic) an error or a record with a non-empty uuid; it starts by
    looking for the device; and, once a mount has succeeded, the result is
    that of opening and parsing the two files under the mount point, and
    the last two calls unmount the mount point and remove it. *)
Lemma configDrive_run env s :
  exists r evs,
    getMetadataFromConfigDrive env s = (Ret r, after s evs)
    /\ (failed r \/ succeeded r)
    /\ (exists rest, evs = EvStat ("/dev/disk/by-label/" ++ configDriveLabel) :: rest)
    /\ (forall dev dir fs opts,
           In (EvMount dev dir fs opts None) evs ->
           (exists before, evs = before ++ [EvUnmount dir; EvRemove dir])%list
           /\ held evs [] = []
           /\ match env_Open env (filepath_Join dir metadataPath) with
              | inr err => r = (None, None, Some err)
              | inl f =>
                  forall s0,
                    parseFullMetadata
                      (fileReader (Some f))
                      (fileReader
                         (match env_Open env (filepath_Join dir networkdataPath) with
                          | inl f2 => Some f2
                          | inr _ => None
                          end)) s0 = (Ret r, s0)
              end).
Proof.
  unfold getMetadataFromConfigDrive. run.
  repeat cd_step.
  all: do 2 eexists; split; [reflexivity|].
  all: split; [first [assumption | left; eexists; reflexivity]|].
  all: split; [eexists; reflexivity|].
  all: intros dev dir fs opts HIn; cbn [In] in HIn; split_In HIn.
  all: inversion HIn; subst dev dir fs opts; clear HIn.
  all: split;
    [match goal with
     | |- exists before, ?evs = _ =>
         exists (firstn (length evs - 2) evs); reflexivity
     end|].
  all: split; [cbn [held filter]; rewrite String.eqb_refl; reflexivity|].
  all: repeat match goal with
              | H : env_Open _ _ = _ |- _ => rewrite H; clear H
              end.
  all: first [reflexivity | intros s2; apply Hparse].
Qed.

(** A run of the Config-Drive source looks the device up once and makes
    no request to the metadata service. *)
Lemma configDrive_once env s :
  exists o evs,
    getMetadataFromConfigDrive env s = (o, after s evs) /\ runs evs = (1, 0).
Proof.
  unfold getMetadataFromConfigDrive. run.
  repeat cd_step.
  all: do 2 eexists; split; reflexivity.
Qed.

Lemma trace_after s evs : trace (after s evs) = (trace s ++ evs)%list.
Proof. reflexivity. Qed.

(** C5.  In every run of the Config-Drive source in which a mount
    succeeds, the source returns (it does not panic) and the last two
    calls it makes are the unmount of the mount point and the removal of
    its directory, in this order: no mount is held when it returns,
    whether the files could be opened and parsed or not. *)
Theorem configDrive_releases_mount env s o s' evs dev dir fs opts :
  getMetadataFromConfigDrive env s = (o, s') ->
  trace s' = (trace s ++ evs)%list ->
  In (EvMount dev dir fs opts None) evs ->
  (exists r, o = Ret r)
  /\ (exists before, evs = before ++ [EvUnmount dir; EvRemove dir])%list
  /\ held evs [] = [].
Proof.
  intros Hrun Htrace HIn.
  destruct (configDrive_run env s) as (r & evs0 & Hrun0 & _ & _ & Hmount).
  rewrite Hrun0 in Hrun. inversion Hrun; subst o s'.
  rewrite trace_after in Htrace. apply app_inv_head in Htrace. subst evs0.
  destruct (Hmount _ _ _ _ HIn) as (Hlast & Hheld & _).
  split; [now exists r|]. split; assumption.
Qed.

Lemma configDrive_releases_mount_witness :
  In (EvMount "/dev/sr0" "/tmp/configdrive042" "vfat" ["ro"] None) configDriveEvents
  /\ (exists r, fst (getMetadataFromConfigDrive envConfigDrive initial) = Ret r)
  /\ (exists before,
         configDriveEvents = before ++ [EvUnmount "/tmp/configdrive042";
                                        EvRemove "/tmp/configdrive042"])%list
  /\ held configDriveEvents [] = [].
Proof.
  split; [cbn; tauto|].
  apply (configDrive_releases_mount envConfigDrive initial
           (fst (getMetadataFromConfigDrive envConfigDrive initial))
           (snd (getMetadataFromConfigDrive envConfigDrive initial))
           configDriveEvents
           "/dev/sr0" "/tmp/configdrive042" "vfat" ["ro"]).
  - apply surjective_pairing.
  - reflexivity.
  - cbn; tauto.
Defined.

(** C7.  In every run of the Config-Drive source in which a mount
    succeeds and the instance-metadata file opens and parses, while the
    network-topology file cannot be opened, the source returns the
    instance metadata, no topology and no error. *)
Theorem configDrive_optional_topology env s o s' evs dev dir fs opts f md err :
  getMetadataFromConfigDrive env s = (o, s') ->
  trace s' = (trace s ++ evs)%list ->
  In (EvMount dev dir fs opts None) evs ->
  env_Open env (filepath_Join dir metadataPath) = inl f ->
  parseMetadata (fileReader (Some f)) s = (Ret (Some md, None), s) ->
  env_Open env (filepath_Join dir networkdataPath) = inr err ->
  o = Ret (Some md, None, None).
Proof.
  intros Hrun Htrace HIn Hopen Hparse Hopen2.
  destruct (configDrive_run env s) as (r & evs0 & Hrun0 & _ & _ & Hmount).
  rewrite Hrun0 in Hrun. inversion Hrun; subst o s'.
  rewrite trace_after in Htrace. apply app_inv_head in Htrace. subst evs0.
  destruct (Hmount _ _ _ _ HIn) as (_ & _ & Hfiles).
  rewrite Hopen, Hopen2 in Hfiles. specialize (Hfiles s).
  unfold parseFullMetadata, bind in Hfiles. rewrite Hparse in Hfiles.
  cbn in Hfiles. inversion Hfiles. reflexivity.
Qed.

Lemma configDrive_optional_topology_witness :
  In (EvMount "/dev/sr0" "/tmp/configdrive042" "vfat" ["ro"] None) configDriveEvents
  /\ fst (getMetadataFromConfigDrive envConfigDrive initial)
     = Ret (Some (mkMetadata "abc-123" "vm1" "az1"), None, None).
Proof.
  split; [cbn; tauto|].
  apply (configDrive_optional_topology envConfigDrive initial
           (fst (getMetadataFromConfigDrive envConfigDrive initial))
           (snd (getMetadataFromConfigDrive envConfigDrive initial))
           configDriveEvents
           "/dev/sr0" "/tmp/configdrive042" "vfat" ["ro"]
           (mkFile "/tmp/configdrive042/openstack/2012-08-10/meta_data.json"
                   (JSON.Text exampleDocument))
           (mkMetadata "abc-123" "vm1" "az1")
           (PathError "open" "/tmp/configdrive042/openstack/2015-10-15/network_data.json"
                      ErrNotExist)).
  - apply surjective_pairing.
  - reflexivity.
  - cbn; tauto.
  - reflexivity.
  - reflexivity.
  - reflexivity.
Defined.

(** ** The Metadata-Service source *)

Ltac run_get :=
  cbv beta iota delta [bind ret defer get http_Get Body_Close emit];
  rewrite ?after_after; cbn [app].

(** What a run of the Metadata-Service source does: it starts with the
    request for the instance metadata, and it panics, or returns an
    error, or returns a record with a non-empty uuid. *)
Lemma metadataService_run env s :
  exists o evs,
    getMetadataFromMetadataService env s = (o, after s evs)
    /\ (o = Panic \/ exists r, o = Ret r /\ (failed r \/ succeeded r))
    /\ (exists rest, evs = EvHttpGet (metadataUrl ++ metadataPath) :: rest).
Proof.
  unfold getMetadataFromMetadataService. run_get.
  destruct (env_Get env (metadataUrl ++ metadataPath)) as [resp|err]; run_get.
  2: { do 2 eexists. split; [reflexivity|].
       split; [|eexists; reflexivity].
       right. eexists. split; [reflexivity|]. left. eexists; reflexivity. }
  destruct (negb (StatusCode resp =? 200)%Z); run_get.
  { do 2 eexists. split; [reflexivity|].
    split; [|eexists; reflexivity].
    right. eexists. split; [reflexivity|]. left. eexists; reflexivity. }
  destruct (env_Get env (metadataUrl ++ networkdataPath)) as [resp2|err2]; run_get.
  - destruct (negb (StatusCode resp2 =? 200)%Z); run_get;
      match goal with
      | |- context [parseFullMetadata ?a ?b ?st] =>
          destruct (parseFullMetadata_cases a b st) as [o [-> Ho]]
      end;
      (do 2 eexists; split; [reflexivity|]; split; [exact Ho|eexists; reflexivity]).
  - match goal with
    | |- context [parseFullMetadata ?a ?b ?st] =>
        destruct (parseFullMetadata_cases a b st) as [o [-> Ho]]
    end.
    do 2 eexists. split; [reflexivity|]. split; [exact Ho|eexists; reflexivity].
Qed.

(** A run of the Metadata-Service source requests the instance metadata
    once and does not look for a config drive. *)
Lemma metadataService_once env s :
  exists o evs,
    getMetadataFromMetadataService env s = (o, after s evs) /\ runs evs = (0, 1).
Proof.
  unfold getMetadataFromMetadataService. run_get.
  destruct (env_Get env (metadataUrl ++ metadataPath)) as [resp|err]; run_get.
  2: { do 2 eexists. split; reflexivity. }
  destruct (negb (StatusCode resp =? 200)%Z); run_get.
  { do 2 eexists. split; reflexivity. }
  destruct (env_Get env (metadataUrl ++ networkdataPath)) as [resp2|err2]; run_get.
  - destruct (negb (StatusCode resp2 =? 200)%Z); run_get;
      match goal with
      | |- context [parseFullMetadata ?a ?b ?st] =>
          destruct (parseFullMetadata_cases a b st) as [o [-> _]]
      end;
      (do 2 eexists; split; reflexivity).
  - match goal with
    | |- context [parseFullMetadata ?a ?b ?st] =>
        destruct (parseFullMetadata_cases a b st) as [o [-> _]]
    end.
    do 2 eexists. split; reflexivity.
Qed.

(** With a nil reader for the topology, parsing ends in an error of the
    instance metadata or in a panic: it never returns a record. *)
Lemma parseFullMetadata_nilReader mdR s o s' :
  parseFullMetadata mdR nilReader s = (o, s') ->
  o = Panic \/ exists r, o = Ret r /\ failed r.
Proof.
  unfold parseFullMetadata, bind.
  destruct (parseMetadata_cases mdR s) as [o1 [-> [-> | [[err ->] | [m [-> Hm]]]]]].
  - intros H; inversion H. now left.
  - intros H; inversion H. right. eexists. split; [reflexivity|]. now exists err.
  - unfold parseNetworkdata, bind. rewrite Decode_eq. cbn.
    intros H; inversion H. now left.
Qed.

(** Whenever the request for the network topology fails, by a transport
    error or by a status other than 200, the Metadata-Service source does
    not return a record: it returns an error or panics. *)
Lemma metadataService_second_fetch env s o s' :
  match env_Get env (metadataUrl ++ networkdataPath) with
  | inr _ => True
  | inl resp => StatusCode resp <> 200%Z
  end ->
  getMetadataFromMetadataService env s = (o, s') ->
  o = Panic \/ exists r, o = Ret r /\ failed r.
Proof.
  intros Hsecond.
  unfold getMetadataFromMetadataService. run_get.
  destruct (env_Get env (metadataUrl ++ metadataPath)) as [resp|err]; run_get.
  2: { intros H; inversion H. right. eexists. split; [reflexivity|].
       eexists; reflexivity. }
  destruct (negb (StatusCode resp =? 200)%Z); run_get.
  { intros H; inversion H. right. eexists. split; [reflexivity|].
    eexists; reflexivity. }
  destruct (env_Get env (metadataUrl ++ networkdataPath)) as [resp2|err2]; run_get.
  - destruct (StatusCode resp2 =? 200)%Z eqn:E.
    + apply Z.eqb_eq in E. contradiction.
    + cbn [negb]. apply parseFullMetadata_nilReader.
  - apply parseFullMetadata_nilReader.
Qed.

(** C6.  The metadata service answers the request for the instance
    metadata with status 200 and the example document, and the request
    for the network topology with status 404.  With the response bodies
    of [net/http] the source returns the error of reading a closed body;
    with bodies that can still be read after [Close] the source panics on
    the nil reader it passes for the topology.  In general, whenever the
    request for the network topology fails, the source does not return
    the instance metadata. *)
Theorem metadataService_second_fetch_failure :
  fst (getMetadataFromMetadataService (envNoTopology httpBody) initial)
  = Ret (None, None, Some errReadOnClosedResBody)
  /\ fst (getMetadataFromMetadataService (envNoTopology replayBody) initial)
     = Panic
  /\ (forall env s o s',
         match env_Get env (metadataUrl ++ networkdataPath) with
         | inl resp => StatusCode resp <> 200%Z
         | inr _ => True
         end ->
         getMetadataFromMetadataService env s = (o, s') ->
         o = Panic \/ exists err, o = Ret (None, None, Some err)).
Proof.
  split; [reflexivity|]. split; [reflexivity|].
  intros env s o s' Hsecond Hrun.
  destruct (metadataService_second_fetch env s o s' Hsecond Hrun)
    as [-> | [r [-> [err ->]]]].
  - now left.
  - right. now exists err.
Qed.

(** ** The cache and the order of the sources *)

Lemma getMetadata_cached env s m :
  metadataCache s = Some m ->
  getMetadata env s = (Ret (Some m, networkdataCache s, None), s).
Proof.
  intros H. unfold getMetadata, returnCaches. rewrite !H. reflexivity.
Qed.

Lemma getMetadata_uncached env s :
  metadataCache s = None ->
  getMetadata env s =
  match getMetadataFromConfigDrive env s with
  | (Panic, s1) => (Panic, s1)
  | (Ret (md, nd, None), s1) => (Ret (md, nd, None), mkState md nd (trace s1))
  | (Ret (_, _, Some _), s1) =>
      match getMetadataFromMetadataService env s1 with
      | (Panic, s2) => (Panic, s2)
      | (Ret (md, nd, None), s2) => (Ret (md, nd, None), mkState md nd (trace s2))
      | (Ret (_, _, Some err), s2) => (Ret (None, None, Some err), s2)
      end
  end.
Proof.
  intros H. unfold getMetadata, bind. rewrite H.
  destruct (getMetadataFromConfigDrive env s) as [[[[md nd] [err|]]|] s1]; cbn.
  - destruct (getMetadataFromMetadataService env s1) as [[[[md' nd'] [err'|]]|] s2];
      reflexivity.
  - reflexivity.
  - reflexivity.
Qed.

(** A call that returns no error returns the record of the cache, which
    is present; its uuid is not empty if that held of the cache before. *)
Lemma getMetadata_success env s md nd s' :
  getMetadata env s = (Ret (md, nd, None), s') ->
  metadataCache s' = md /\ networkdataCache s' = nd /\
  exists m, md = Some m /\ (cacheOK s -> Uuid m <> "").
Proof.
  destruct (metadataCache s) as [m|] eqn:Hc.
  - rewrite (getMetadata_cached env s m Hc). intros H; inversion H; subst.
    repeat split; try assumption. exists m. split; [reflexivity|].
    unfold cacheOK. now rewrite Hc.
  - rewrite (getMetadata_uncached env s Hc).
    destruct (configDrive_run env s) as (r & evs & -> & Hr & _).
    destruct Hr as [[err ->] | [m [nd0 [-> Hm]]]].
    + destruct (metadataService_run env (after s evs))
        as (o & evs' & -> & [-> | [r [-> Hr]]] & _); [discriminate|].
      destruct Hr as [[err' ->] | [m [nd0 [-> Hm]]]]; [discriminate|].
      intros H; inversion H; subst. cbn. repeat split. eauto.
    + intros H; inversion H; subst. cbn. repeat split. eauto.
Qed.

Lemma getMetadata_cacheOK env s o s' :
  cacheOK s -> getMetadata env s = (o, s') -> cacheOK s'.
Proof.
  intros Hok. destruct (metadataCache s) as [m|] eqn:Hc.
  - rewrite (getMetadata_cached env s m Hc). intros H; inversion H; subst. exact Hok.
  - rewrite (getMetadata_uncached env s Hc).
    destruct (configDrive_run env s) as (r & evs & -> & Hr & _).
    destruct Hr as [[err ->] | [m [nd0 [-> Hm]]]].
    + destruct (metadataService_run env (after s evs))
        as (o' & evs' & -> & [-> | [r [-> Hr]]] & _).
      * intros H; inversion H; subst. unfold cacheOK. cbn. now rewrite Hc.
      * destruct Hr as [[err' ->] | [m [nd0 [-> Hm]]]];
          intros H; inversion H; subst; unfold cacheOK; cbn; [now rewrite Hc|exact Hm].
    + intros H; inversion H; subst. unfold cacheOK. cbn. exact Hm.
Qed.

Lemma reachable_cacheOK s : reachable s -> cacheOK s.
Proof.
  induction 1 as [|env s o s' _ IH Hcall].
  - exact I.
  - exact (getMetadata_cacheOK env s o s' IH Hcall).
Qed.

Lemma runs_app evs evs' :
  runs (evs ++ evs') =
  (fst (runs evs) + fst (runs evs'), snd (runs evs) + snd (runs evs')).
Proof.
  unfold runs. cbn [fst snd]. now rewrite !filter_app, !length_app.
Qed.

(** One call of [getMetadata] runs each source at most once. *)
Lemma getMetadata_runs env s o s' :
  getMetadata env s = (o, s') ->
  exists evs,
    trace s' = (trace s ++ evs)%list /\ fst (runs evs) <= 1 /\ snd (runs evs) <= 1.
Proof.
  destruct (metadataCache s) as [m|] eqn:Hc.
  - rewrite (getMetadata_cached env s m Hc). intros H; inversion H; subst.
    exists []. rewrite app_nil_r. cbn. repeat split; auto.
  - rewrite (getMetadata_uncached env s Hc).
    destruct (configDrive_once env s) as (o1 & evs1 & -> & Hr1).
    destruct o1 as [[[md nd] [e|]]|].
    + destruct (metadataService_once env (after s evs1)) as (o2 & evs2 & -> & Hr2).
      assert (Hruns : fst (runs (evs1 ++ evs2)) <= 1 /\ snd (runs (evs1 ++ evs2)) <= 1).
      { rewrite runs_app, Hr1, Hr2. cbn. split; auto. }
      destruct o2 as [[[md' nd'] [e'|]]|]; intros H; inversion H; subst;
        exists (evs1 ++ evs2)%list;
        (split; [cbn [trace after]; now rewrite app_assoc|exact Hruns]).
    + intros H; inversion H; subst. exists evs1.
      split; [reflexivity|]. rewrite Hr1. cbn. split; auto.
    + intros H; inversion H; subst. exists evs1.
      split; [reflexivity|]. rewrite Hr1. cbn. split; auto.
Qed.

(** C2.  A call of [getMetadata] that returns without error has run each
    source at most once.  After it, any number of further calls, whatever
    the environment answers, return the same record and topology and
    leave the state as it is: the trace does not grow, so neither source
    is run again. *)
Theorem getMetadata_cached_forever env0 s0 md nd s1 :
  getMetadata env0 s0 = (Ret (md, nd, None), s1) ->
  (exists evs,
      trace s1 = (trace s0 ++ evs)%list
      /\ fst (runs evs) <= 1 /\ snd (runs evs) <= 1)
  /\ forall envs,
      calls envs s1 = (repeat (Ret (md, nd, None)) (length envs), s1).
Proof.
  intros Hfirst. split; [exact (getMetadata_runs _ _ _ _ Hfirst)|].
  destruct (getMetadata_success _ _ _ _ _ Hfirst) as (Hmd & Hnd & m & -> & _).
  induction envs as [|env rest IH]; simpl.
  - reflexivity.
  - rewrite (getMetadata_cached env s1 m Hmd), Hnd, IH. reflexivity.
Qed.

Lemma getMetadata_cached_forever_witness :
  exists s1,
    getMetadata envConfigDrive initial
    = (Ret (Some (mkMetadata "abc-123" "vm1" "az1"), None, None), s1)
    /\ calls [envNothing; envService replayBody; envConfigDrive] s1
       = ([Ret (Some (mkMetadata "abc-123" "vm1" "az1"), None, None);
           Ret (Some (mkMetadata "abc-123" "vm1" "az1"), None, None);
           Ret (Some (mkMetadata "abc-123" "vm1" "az1"), None, None)], s1).
Proof.
  eexists. split; [reflexivity|].
  apply (proj2 (getMetadata_cached_forever envConfigDrive initial
                  (Some (mkMetadata "abc-123" "vm1" "az1")) None _ eq_refl)
               [envNothing; envService replayBody; envConfigDrive]).
Defined.

(** C3.  With an empty cache, when the Config-Drive source returns an
    error, the Metadata-Service source is run next, in the state the
    Config-Drive source left; when it returns without error,
    [getMetadata] returns its record and topology (and caches them). *)
Theorem getMetadata_fallback env s md0 nd0 err s1 md nd s2 :
  metadataCache s = None ->
  getMetadataFromConfigDrive env s = (Ret (md0, nd0, Some err), s1) ->
  getMetadataFromMetadataService env s1 = (Ret (md, nd, None), s2) ->
  getMetadata env s = (Ret (md, nd, None), mkState md nd (trace s2))
  /\ exists rest,
      trace s2 = (trace s1 ++ EvHttpGet (metadataUrl ++ metadataPath) :: rest)%list.
Proof.
  intros Hc Hcd Hms. split.
  - rewrite (getMetadata_uncached env s Hc), Hcd, Hms. reflexivity.
  - destruct (metadataService_run env s1) as (o & evs & Hrun & _ & rest & ->).
    rewrite Hrun in Hms. inversion Hms. now exists rest.
Qed.

Lemma getMetadata_fallback_witness :
  fst (getMetadataFromConfigDrive (envService replayBody) initial)
  = Ret (None, None, Some (OtherError "exit status 2"))
  /\ fst (getMetadataFromMetadataService
            (envService replayBody)
            (snd (getMetadataFromConfigDrive (envService replayBody) initial)))
     = Ret (Some (mkMetadata "abc-123" "vm1" "az1"),
            Some (mkNetworkdata
                    [mkLink "fa:16:3e:00:00:01" "ovs" "tap1"]
                    [mkNetwork "net1" "" "tap1" None "ipv4_dhcp"] []),
            None)
  /\ fst (getMetadata (envService replayBody) initial)
     = Ret (Some (mkMetadata "abc-123" "vm1" "az1"),
            Some (mkNetworkdata
                    [mkLink "fa:16:3e:00:00:01" "ovs" "tap1"]
                    [mkNetwork "net1" "" "tap1" None "ipv4_dhcp"] []),
            None).
Proof.
  split; [reflexivity|]. split; [reflexivity|].
  rewrite (proj1 (getMetadata_fallback
                    (envService replayBody) initial None None
                    (OtherError "exit status 2")
                    (snd (getMetadataFromConfigDrive (envService replayBody) initial))
                    (Some (mkMetadata "abc-123" "vm1" "az1"))
                    (Some (mkNetworkdata
                             [mkLink "fa:16:3e:00:00:01" "ovs" "tap1"]
                             [mkNetwork "net1" "" "tap1" None "ipv4_dhcp"] []))
                    (snd (getMetadataFromMetadataService
                            (envService replayBody)
                            (snd (getMetadataFromConfigDrive (envService replayBody)
                                                             initial))))
                    eq_refl eq_refl eq_refl)).
  reflexivity.
Defined.

Ltac exists_state :=
  match goal with
  | |- exists o s3 rest, (?a, ?b) = (o, s3) /\ _ =>
      exists a, b; eexists
  end.

(** C4.  With an empty cache, when both sources return an error,
    [getMetadata] returns one error, that of the Metadata-Service source,
    and no record; the cache is as it was, empty.  The next call, whatever
    the environment then answers, starts again with the device lookup of
    the Config-Drive source and, if that source fails again, goes on to
    the request of the Metadata-Service source. *)
Theorem getMetadata_double_failure env s md1 nd1 err1 s1 md2 nd2 err2 s2 :
  metadataCache s = None ->
  getMetadataFromConfigDrive env s = (Ret (md1, nd1, Some err1), s1) ->
  getMetadataFromMetadataService env s1 = (Ret (md2, nd2, Some err2), s2) ->
  getMetadata env s = (Ret (None, None, Some err2), s2)
  /\ metadataCache s2 = None
  /\ networkdataCache s2 = networkdataCache s
  /\ forall env',
      exists o s3 rest,
        getMetadata env' s2 = (o, s3)
        /\ trace s3 = (trace s2 ++ EvStat alias :: rest)%list
        /\ (forall r' s', getMetadataFromConfigDrive env' s2 = (Ret r', s') ->
                          failed r' ->
                          In (EvHttpGet (metadataUrl ++ metadataPath)) rest).
Proof.
  intros Hc Hcd Hms.
  assert (Hc2 : metadataCache s2 = None /\ networkdataCache s2 = networkdataCache s).
  { destruct (configDrive_run env s) as (r & evs & Hrun & _).
    rewrite Hrun in Hcd. inversion Hcd; subst.
    destruct (metadataService_run env (after s evs)) as (o & evs' & Hrun' & _).
    rewrite Hrun' in Hms. inversion Hms; subst. cbn. split; [exact Hc|reflexivity]. }
  destruct Hc2 as [Hc2 Hn2].
  split; [|split; [exact Hc2|split; [exact Hn2|]]].
  - rewrite (getMetadata_uncached env s Hc), Hcd, Hms. reflexivity.
  - intros env'. unfold alias. rewrite (getMetadata_uncached env' s2 Hc2).
    destruct (configDrive_run env' s2) as (r1 & evs1 & Hrun1 & Hr1 & [rest1 ->] & _).
    rewrite Hrun1.
    destruct Hr1 as [[e1 ->] | [m [nd0 [-> Hm]]]].
    + match goal with
      | |- context [getMetadataFromMetadataService env' ?st] =>
          destruct (metadataService_run env' st) as (o & evs2 & Hrun2 & _ & rest2 & ->)
      end.
      rewrite Hrun2. rewrite after_after.
      assert (HIn : In (EvHttpGet (metadataUrl ++ metadataPath))
                       (rest1 ++ EvHttpGet (metadataUrl ++ metadataPath) :: rest2)).
      { apply in_or_app. right. now left. }
      destruct o as [[[md nd] [e|]]|];
        exists_state;
        (split; [reflexivity|]);
        (split; [reflexivity|]); intros r' s' _ _; exact HIn.
    + exists_state. split; [reflexivity|]. split; [reflexivity|].
      intros r' s' H [e He]. inversion H; subst. discriminate.
Qed.

Lemma getMetadata_double_failure_witness :
  getMetadata envNothing initial
  = (Ret (None, None, Some (OtherError "dial tcp 169.254.169.254:80: i/o timeout")),
     after initial [EvStat alias;
                    EvExec ["blkid"; "-l"; "-t"; "LABEL=config-2"; "-o"; "device"];
                    EvHttpGet (metadataUrl ++ metadataPath)]).
Proof.
  apply (getMetadata_double_failure
           envNothing initial None None (OtherError "exit status 2")
           (after initial [EvStat alias;
                           EvExec ["blkid"; "-l"; "-t"; "LABEL=config-2"; "-o"; "device"]])
           None None (OtherError "dial tcp 169.254.169.254:80: i/o timeout")
           (after initial [EvStat alias;
                           EvExec ["blkid"; "-l"; "-t"; "LABEL=config-2"; "-o"; "device"];
                           EvHttpGet (metadataUrl ++ metadataPath)])
           eq_refl eq_refl eq_refl).
Defined.

(** C10.  In every state the process can be in, a populated cache holds
    a record with a non-empty uuid, and a call of [getMetadata] that
    returns without error, from the cache or from a source, returns a
    record, and its uuid is not empty. *)
Theorem getMetadata_identity s :
  reachable s ->
  cacheOK s
  /\ forall env md nd s',
      getMetadata env s = (Ret (md, nd, None), s') ->
      exists m, md = Some m /\ Uuid m <> "".
Proof.
  intros Hreach. pose proof (reachable_cacheOK s Hreach) as Hok.
  split; [exact Hok|].
  intros env md nd s' Hcall.
  destruct (getMetadata_success _ _ _ _ _ Hcall) as (_ & _ & m & -> & Hm).
  exists m. split; [reflexivity|]. exact (Hm Hok).
Qed.

Lemma getMetadata_identity_witness :
  cacheOK (snd (getMetadata envConfigDrive initial))
  /\ forall env md nd s',
      getMetadata env (snd (getMetadata envConfigDrive initial))
      = (Ret (md, nd, None), s') ->
      exists m, md = Some m /\ Uuid m <> "".
Proof.
  apply (getMetadata_identity (snd (getMetadata envConfigDrive initial))).
  apply (reach_call envConfigDrive initial
                    (fst (getMetadata envConfigDrive initial))).
  - exact reach_initial.
  - apply surjective_pairing.
Defined.

(** * Further properties *)

(** ** [get] *)

Lemma bodyClosed_after id s evs :
  In (EvBodyClose id) evs -> bodyClosed id (after s evs) = true.
Proof.
  intros H. unfold bodyClosed. cbn [trace after]. rewrite existsb_app.
  apply orb_true_iff. right. apply existsb_exists.
  exists (EvBodyClose id). split; [exact H|]. cbn. apply Nat.eqb_refl.
Qed.

(** X1.  [get] returns a reader only for a response with status 200, and
    that reader is the body of the response after [Close] has been called
    on it: what the caller reads is what the body gives once closed.  For
    any other status it returns no reader and an error, the body closed
    as well; for a transport error it returns that error. *)
Theorem get_returns_closed_body env url s :
  match env_Get env url with
  | inr e =>
      get env url s = (Ret (nilReader, Some e), after s [EvHttpGet url])
  | inl resp =>
      let id := length (trace s) in
      let s' := after s [EvHttpGet url; EvBodyClose id] in
      if (StatusCode resp =? 200)%Z then
        get env url s = (Ret (bodyReader id (RespBody resp), None), s')
        /\ Read (bodyReader id (RespBody resp)) s'
           = (Ret (bodyAfterClose (RespBody resp)), s')
      else
        exists msg, get env url s = (Ret (nilReader, Some (Errorf msg)), s')
  end.
Proof.
  unfold get. run_get.
  destruct (env_Get env url) as [resp|e]; run_get; [|reflexivity].
  destruct (StatusCode resp =? 200)%Z; cbn [negb]; run_get.
  - split; [reflexivity|].
    unfold Read. rewrite bodyClosed_after by (cbn; auto). reflexivity.
  - eexists. reflexivity.
Qed.

(** ** The Metadata-Service source, request by request *)

Lemma Read_closed id b s evs :
  In (EvBodyClose id) evs ->
  Read (bodyReader id b) (after s evs) = (Ret (bodyAfterClose b), after s evs).
Proof.
  intros H. unfold Read. now rewrite bodyClosed_after.
Qed.

(** After a first response with status 200 the source parses the two
    readers that [get] gave it, both bodies closed. *)
Lemma metadataService_parse env s resp :
  env_Get env (metadataUrl ++ metadataPath) = inl resp ->
  (StatusCode resp =? 200)%Z = true ->
  getMetadataFromMetadataService env s =
  match env_Get env (metadataUrl ++ networkdataPath) with
  | inl resp2 =>
      parseFullMetadata
        (bodyReader (length (trace s)) (RespBody resp))
        (if (StatusCode resp2 =? 200)%Z
         then bodyReader (length (trace s) + 2) (RespBody resp2)
         else nilReader)
        (after s [EvHttpGet (metadataUrl ++ metadataPath);
                  EvBodyClose (length (trace s));
                  EvHttpGet (metadataUrl ++ networkdataPath);
                  EvBodyClose (length (trace s) + 2)])
  | inr _ =>
      parseFullMetadata
        (bodyReader (length (trace s)) (RespBody resp)) nilReader
        (after s [EvHttpGet (metadataUrl ++ metadataPath);
                  EvBodyClose (length (trace s));
                  EvHttpGet (metadataUrl ++ networkdataPath)])
  end.
Proof.
  intros Hget Hok.
  unfold getMetadataFromMetadataService. run_get.
  rewrite Hget. run_get. rewrite Hok. cbn [negb]. run_get.
  cbn [trace after]. rewrite length_app. cbn [length].
  destruct (env_Get env (metadataUrl ++ networkdataPath)) as [resp2|err2]; run_get.
  - destruct (StatusCode resp2 =? 200)%Z; cbn [negb]; run_get; reflexivity.
  - reflexivity.
Qed.

(** X2.  When the first response has status 200 and its body, like the
    bodies of [net/http], answers a read after [Close] with an error, the
    Metadata-Service source returns that error, whatever the document
    served and whatever becomes of the second request: it neither
    succeeds nor panics. *)
Theorem metadataService_reads_closed_body env s resp e :
  env_Get env (metadataUrl ++ metadataPath) = inl resp ->
  StatusCode resp = 200%Z ->
  bodyAfterClose (RespBody resp) = JSON.Broken e ->
  fst (getMetadataFromMetadataService env s) = Ret (None, None, Some e).
Proof.
  intros Hget Hok Hbody.
  rewrite (metadataService_parse env s resp Hget) by now apply Z.eqb_eq.
  assert (H : forall ndR evs,
             In (EvBodyClose (length (trace s))) evs ->
             fst (parseFullMetadata (bodyReader (length (trace s)) (RespBody resp))
                                    ndR (after s evs))
             = Ret (None, None, Some e)).
  { intros ndR evs HIn.
    unfold parseFullMetadata, parseMetadata, Decode, bind.
    rewrite (Read_closed _ _ _ _ HIn), Hbody. reflexivity. }
  destruct (env_Get env (metadataUrl ++ networkdataPath)); apply H; cbn; auto.
Qed.

Lemma metadataService_reads_closed_body_witness :
  fst (getMetadataFromMetadataService (envService httpBody) initial)
  = Ret (None, None, Some errReadOnClosedResBody).
Proof.
  apply (metadataService_reads_closed_body
           (envService httpBody) initial
           (mkResponse 200 "200 OK" (httpBody (JSON.Text exampleDocument)))
           errReadOnClosedResBody).
  - reflexivity.
  - reflexivity.
  - reflexivity.
Defined.

(** Without a first response with status 200 the source stops. *)
Lemma metadataService_stops env s :
  match env_Get env (metadataUrl ++ metadataPath) with
  | inr e =>
      getMetadataFromMetadataService env s
      = (Ret (None, None, Some e), after s [EvHttpGet (metadataUrl ++ metadataPath)])
  | inl resp =>
      StatusCode resp <> 200%Z ->
      exists msg,
        getMetadataFromMetadataService env s
        = (Ret (None, None, Some (Errorf msg)),
           after s [EvHttpGet (metadataUrl ++ metadataPath);
                    EvBodyClose (length (trace s))])
  end.
Proof.
  unfold getMetadataFromMetadataService. run_get.
  destruct (env_Get env (metadataUrl ++ metadataPath)) as [resp|e]; run_get;
    [|reflexivity].
  intros Hne. apply Z.eqb_neq in Hne. rewrite Hne. cbn [negb]. run_get.
  eexists. reflexivity.
Qed.

(** X3.  When the request for the instance metadata fails, by a transport
    error or by a status other than 200, the Metadata-Service source
    returns an error and makes no request for the network topology. *)
Theorem metadataService_first_fetch_failure env s :
  match env_Get env (metadataUrl ++ metadataPath) with
  | inr e =>
      getMetadataFromMetadataService env s
      = (Ret (None, None, Some e), after s [EvHttpGet (metadataUrl ++ metadataPath)])
  | inl resp =>
      StatusCode resp <> 200%Z ->
      exists msg,
        getMetadataFromMetadataService env s
        = (Ret (None, None, Some (Errorf msg)),
           after s [EvHttpGet (metadataUrl ++ metadataPath);
                    EvBodyClose (length (trace s))])
  end.
Proof.
  unfold getMetadataFromMetadataService. run_get.
  destruct (env_Get env (metadataUrl ++ metadataPath)) as [resp|e]; run_get;
    [|reflexivity].
  intros Hne. apply Z.eqb_neq in Hne. rewrite Hne. cbn [negb]. run_get.
  eexists. reflexivity.
Qed.

(** X4.  The Metadata-Service source talks to the metadata service only:
    it requests the instance metadata first and the network topology
    second, closes the body of each response as soon as it has it, and
    makes no other call. *)
Theorem metadataService_requests env s o s' evs :
  getMetadataFromMetadataService env s = (o, s') ->
  trace s' = (trace s ++ evs)%list ->
  let get1 := EvHttpGet (metadataUrl ++ metadataPath) in
  let get2 := EvHttpGet (metadataUrl ++ networkdataPath) in
  let id := length (trace s) in
  evs = [get1]
  \/ evs = [get1; EvBodyClose id]
  \/ evs = [get1; EvBodyClose id; get2]
  \/ evs = [get1; EvBodyClose id; get2; EvBodyClose (id + 2)].
Proof.
  intros Hrun Htrace. cbv zeta.
  assert (Hevs : forall evs0, s' = after s evs0 -> evs = evs0).
  { intros evs0 ->. rewrite trace_after in Htrace.
    now apply app_inv_head in Htrace. }
  pose proof (metadataService_stops env s) as Hfail.
  destruct (env_Get env (metadataUrl ++ metadataPath)) as [resp|e] eqn:Hget.
  - destruct (StatusCode resp =? 200)%Z eqn:Hok.
    + rewrite (metadataService_parse env s resp Hget Hok) in Hrun.
      destruct (env_Get env (metadataUrl ++ networkdataPath)) as [resp2|e2];
        match type of Hrun with
        | parseFullMetadata ?a ?b ?st = _ =>
            destruct (parseFullMetadata_cases a b st) as [o' [Hp _]];
            rewrite Hp in Hrun; inversion Hrun; subst o' s'
        end.
      * right; right; right. now apply Hevs.
      * right; right; left. now apply Hevs.
    + apply Z.eqb_neq in Hok. destruct (Hfail Hok) as [msg Hm].
      rewrite Hm in Hrun. inversion Hrun; subst.
      right; left. now apply Hevs.
  - rewrite Hfail in Hrun. inversion Hrun; subst.
    left. now apply Hevs.
Qed.

Lemma metadataService_requests_witness :
  trace (snd (getMetadataFromMetadataService (envService replayBody) initial))
  = [EvHttpGet (metadataUrl ++ metadataPath); EvBodyClose 0;
     EvHttpGet (metadataUrl ++ networkdataPath); EvBodyClose 2]
  /\ ([EvHttpGet (metadataUrl ++ metadataPath); EvBodyClose 0;
       EvHttpGet (metadataUrl ++ networkdataPath); EvBodyClose 2]
      = [EvHttpGet (metadataUrl ++ metadataPath)]
      \/ [EvHttpGet (metadataUrl ++ metadataPath); EvBodyClose 0;
          EvHttpGet (metadataUrl ++ networkdataPath); EvBodyClose 2]
         = [EvHttpGet (metadataUrl ++ metadataPath); EvBodyClose 0]
      \/ [EvHttpGet (metadataUrl ++ metadataPath); EvBodyClose 0;
          EvHttpGet (metadataUrl ++ networkdataPath); EvBodyClose 2]
         = [EvHttpGet (metadataUrl ++ metadataPath); EvBodyClose 0;
            EvHttpGet (metadataUrl ++ networkdataPath)]
      \/ [EvHttpGet (metadataUrl ++ metadataPath); EvBodyClose 0;
          EvHttpGet (metadataUrl ++ networkdataPath); EvBodyClose 2]
         = [EvHttpGet (metadataUrl ++ metadataPath); EvBodyClose 0;
            EvHttpGet (metadataUrl ++ networkdataPath); EvBodyClose 2]).
Proof.
  split; [reflexivity|].
  apply (metadataService_requests
           (envService replayBody) initial
           (fst (getMetadataFromMetadataService (envService replayBody) initial))
           (snd (getMetadataFromMetadataService (envService replayBody) initial))
           [EvHttpGet (metadataUrl ++ metadataPath); EvBodyClose 0;
            EvHttpGet (metadataUrl ++ networkdataPath); EvBodyClose 2]).
  - apply surjective_pairing.
  - reflexivity.
Defined.

(** ** The parsers on further documents *)

Lemma array_map {A T : Type} (zero : T)
      (storeElem : JSON.value -> T -> option error -> T * option error)
      (enc : A -> JSON.value) (dec : A -> T) :
  (forall a saved, storeElem (enc a) zero saved = (dec a, saved)) ->
  forall xs saved,
    JSON.array zero storeElem (map enc xs) saved = (map dec xs, saved).
Proof.
  intros H. induction xs as [|a xs IH]; intros saved; cbn [map JSON.array].
  - reflexivity.
  - now rewrite H, IH.
Qed.

Lemma storeLink_linkDocument l saved :
  storeLink (linkDocument l) zeroLink saved = (l, saved).
Proof. destruct l. reflexivity. Qed.

Lemma storeNetwork_networkDocument n saved :
  storeNetwork (networkDocument n) zeroNetwork saved = (setNetLink n None, saved).
Proof. destruct n. reflexivity. Qed.

Lemma storeService_serviceDocument x saved :
  storeService (serviceDocument x) zeroService saved = (x, saved).
Proof. destruct x. reflexivity. Qed.

Lemma unmarshalNetworkdata_topologyOf links networks services :
  unmarshalNetworkdata (topologyOf links networks services) zeroNetworkdata
  = (mkNetworkdata links (map (fun n => setNetLink n None) networks) services, None).
Proof.
  unfold unmarshalNetworkdata, topologyOf, JSON.storeStruct.
  cbn [JSON.object].
  change (JSON.findField NetworkdataFields "services" None) with (Some "services").
  change (JSON.findField NetworkdataFields "networks" None) with (Some "networks").
  change (JSON.findField NetworkdataFields "links" None) with (Some "links").
  unfold storeNetworkdataField at 1. cbn [String.eqb Ascii.eqb Bool.eqb].
  unfold JSON.storeSlice at 1.
  rewrite (array_map zeroService storeService serviceDocument (fun x => x)
                     storeService_serviceDocument), map_id.
  unfold storeNetworkdataField at 1. cbn [String.eqb Ascii.eqb Bool.eqb].
  unfold JSON.storeSlice at 1.
  rewrite (array_map zeroNetwork storeNetwork networkDocument
                     (fun n => setNetLink n None) storeNetwork_networkDocument).
  unfold storeNetworkdataField at 1. cbn [String.eqb Ascii.eqb Bool.eqb].
  unfold JSON.storeSlice at 1.
  rewrite (array_map zeroLink storeLink linkDocument (fun l => l)
                     storeLink_linkDocument), map_id.
  reflexivity.
Qed.

(** X5.  [parseNetworkdata] reproduces a topology document: the links,
    the interfaces and the services that the document lists come back
    field by field, each list in the order of the document, and every
    interface comes back with its link unresolved.  A document whose
    lists are empty is no error: it gives the empty topology. *)
Theorem parseNetworkdata_reproduces_document r s links networks services :
  Read r s = (Ret (JSON.Text (topologyOf links networks services)), s) ->
  parseNetworkdata r s
  = (Ret (Some (mkNetworkdata links
                              (map (fun n => setNetLink n None) networks)
                              services), None), s).
Proof.
  intros HRead. unfold parseNetworkdata, bind.
  rewrite Decode_eq, HRead. cbn [fst].
  rewrite unmarshalNetworkdata_topologyOf. cbn [ret].
  now rewrite rangeNetworks_networkdata.
Qed.

Lemma parseNetworkdata_reproduces_document_witness :
  parseNetworkdata
    (fileReader
       (Some (mkFile "network_data.json"
                     (JSON.Text
                        (topologyOf
                           [mkLink "fa:16:3e:00:00:01" "ovs" "tap1";
                            mkLink "fa:16:3e:00:00:02" "ovs" "tap2"]
                           [mkNetwork "net2" "10.0.0.7" "tap2" None "ipv4"]
                           [mkService "dns" "8.8.8.8"])))))
    initial
  = (Ret (Some (mkNetworkdata
                  [mkLink "fa:16:3e:00:00:01" "ovs" "tap1";
                   mkLink "fa:16:3e:00:00:02" "ovs" "tap2"]
                  [mkNetwork "net2" "10.0.0.7" "tap2" None "ipv4"]
                  [mkService "dns" "8.8.8.8"]), None), initial)
  /\ parseNetworkdata
       (fileReader (Some (mkFile "network_data.json" (JSON.Text (topologyOf [] [] [])))))
       initial
     = (Ret (Some (mkNetworkdata [] [] []), None), initial).
Proof.
  split.
  - apply (parseNetworkdata_reproduces_document
             (fileReader
                (Some (mkFile "network_data.json"
                              (JSON.Text
                                 (topologyOf
                                    [mkLink "fa:16:3e:00:00:01" "ovs" "tap1";
                                     mkLink "fa:16:3e:00:00:02" "ovs" "tap2"]
                                    [mkNetwork "net2" "10.0.0.7" "tap2" None "ipv4"]
                                    [mkService "dns" "8.8.8.8"])))))
             initial
             [mkLink "fa:16:3e:00:00:01" "ovs" "tap1";
              mkLink "fa:16:3e:00:00:02" "ovs" "tap2"]
             [mkNetwork "net2" "10.0.0.7" "tap2" None "ipv4"]
             [mkService "dns" "8.8.8.8"]).
    reflexivity.
  - apply (parseNetworkdata_reproduces_document
             (fileReader (Some (mkFile "network_data.json"
                                       (JSON.Text (topologyOf [] [] [])))))
             initial [] [] []).
    reflexivity.
Defined.

Lemma storeMetadataField_sticky f v x e :
  snd (storeMetadataField f v x (Some e)) = Some e.
Proof.
  unfold storeMetadataField, JSON.storeString.
  destruct (f =? "uuid"); [destruct v; reflexivity|].
  destruct (f =? "name"); [destruct v; reflexivity|].
  destruct (f =? "availability_zone"); [destruct v; reflexivity|].
  reflexivity.
Qed.

(** The decoder keeps the first error to the end. *)
Lemma object_sticky members : forall x e,
  snd (JSON.object MetadataFields storeMetadataField members x (Some e)) = Some e.
Proof.
  induction members as [|[key v] rest IH]; intros x e; cbn [JSON.object].
  - reflexivity.
  - destruct (JSON.findField MetadataFields key None) as [f|]; [|apply IH].
    pose proof (storeMetadataField_sticky f v x e) as H.
    destruct (storeMetadataField f v x (Some e)) as [x' saved'].
    cbn [snd] in H. subst saved'. apply IH.
Qed.

Lemma object_illTyped members : forall x,
  existsb illTyped members = true ->
  snd (JSON.object MetadataFields storeMetadataField members x None)
  = Some (UnmarshalTypeError "string").
Proof.
  induction members as [|[key v] rest IH]; intros x H; cbn [existsb] in H.
  - discriminate.
  - cbn [JSON.object]. unfold illTyped in H at 1. cbn [fst snd] in H.
    rewrite isTracked_findField in H.
    destruct (JSON.findField MetadataFields key None) as [f|] eqn:Ef;
      [|now apply IH].
    destruct (findField_Metadata _ _ Ef) as [-> | [-> | ->]];
      cbv [storeMetadataField JSON.storeString JSON.saveError];
      cbn [String.eqb Ascii.eqb Bool.eqb];
      destruct v; cbn in H;
      first [now apply IH | apply object_sticky].
Qed.

(** X6.  An instance-metadata document in which a member naming uuid,
    name or availability_zone holds a number, a boolean, an array or an
    object is rejected with the type error of the decoder, and no record
    is returned, even when the document has a usable uuid. *)
Theorem parseMetadata_ill_typed r s members :
  Read r s = (Ret (JSON.Text (JSON.Object members)), s) ->
  existsb illTyped members = true ->
  parseMetadata r s = (Ret (None, Some (UnmarshalTypeError "string")), s).
Proof.
  intros HRead Hill. unfold parseMetadata, bind.
  rewrite Decode_eq, HRead. cbn [fst].
  unfold unmarshalMetadata, JSON.storeStruct.
  pose proof (object_illTyped members zeroMetadata Hill) as H.
  destruct (JSON.object MetadataFields storeMetadataField members zeroMetadata None)
    as [m saved].
  cbn [snd] in H. subst saved. reflexivity.
Qed.

Lemma parseMetadata_ill_typed_witness :
  parseMetadata
    (fileReader (Some (mkFile "meta_data.json"
                              (JSON.Text (JSON.Object [("uuid", JSON.Str "abc-123");
                                                       ("name", JSON.Number "5")])))))
    initial
  = (Ret (None, Some (UnmarshalTypeError "string")), initial).
Proof.
  apply (parseMetadata_ill_typed
           (fileReader (Some (mkFile "meta_data.json"
                                     (JSON.Text (JSON.Object
                                                   [("uuid", JSON.Str "abc-123");
                                                    ("name", JSON.Number "5")])))))
           initial
           [("uuid", JSON.Str "abc-123"); ("name", JSON.Number "5")]).
  - reflexivity.
  - reflexivity.
Defined.

Lemma object_filter_tracked members : forall x saved,
  JSON.object MetadataFields storeMetadataField
              (filter (fun m => isTracked (fst m)) members) x saved
  = JSON.object MetadataFields storeMetadataField members x saved.
Proof.
  induction members as [|[key v] rest IH]; intros x saved; cbn [filter fst].
  - reflexivity.
  - rewrite isTracked_findField.
    destruct (JSON.findField MetadataFields key None) as [f|] eqn:Ef;
      cbn [JSON.object]; rewrite ?Ef.
    + destruct (storeMetadataField f v x saved). apply IH.
    + apply IH.
Qed.

(** X7.  Members that name none of the three fields have no part in the
    result of [parseMetadata], whatever they hold: a document and the
    document without these members give the same record or the same
    error. *)
Theorem parseMetadata_ignores_unknown r s r' s' members :
  Read r s = (Ret (JSON.Text (JSON.Object members)), s) ->
  Read r' s'
  = (Ret (JSON.Text (JSON.Object (filter (fun m => isTracked (fst m)) members))), s') ->
  fst (parseMetadata r s) = fst (parseMetadata r' s').
Proof.
  intros HRead HRead'. unfold parseMetadata, bind.
  rewrite !Decode_eq, HRead, HRead'. cbn [fst].
  unfold unmarshalMetadata, JSON.storeStruct.
  rewrite object_filter_tracked.
  destruct (JSON.object MetadataFields storeMetadataField members zeroMetadata None)
    as [m [e|]]; [reflexivity|].
  cbn [ret]. destruct (Uuid m =? ""); reflexivity.
Qed.

Lemma parseMetadata_ignores_unknown_witness :
  fst (parseMetadata
         (fileReader (Some (mkFile "meta_data.json"
                                   (JSON.Text (JSON.Object richDocument)))))
         initial)
  = fst (parseMetadata
           (fileReader (Some (mkFile "meta_data.json"
                                     (JSON.Text (JSON.Object
                                                   [("uuid", JSON.Str "abc-123");
                                                    ("Name", JSON.Str "vm1");
                                                    ("availability_zone",
                                                     JSON.Str "az1")])))))
           initial).
Proof.
  apply (parseMetadata_ignores_unknown
           (fileReader (Some (mkFile "meta_data.json"
                                     (JSON.Text (JSON.Object richDocument)))))
           initial
           (fileReader (Some (mkFile "meta_data.json"
                                     (JSON.Text (JSON.Object
                                                   [("uuid", JSON.Str "abc-123");
                                                    ("Name", JSON.Str "vm1");
                                                    ("availability_zone",
                                                     JSON.Str "az1")])))))
           initial richDocument).
  - reflexivity.
  - reflexivity.
Defined.

(** ** The Config-Drive source, stage by stage *)

(** Following the run along the answers of the environment that the
    hypotheses fix. *)
Ltac follow :=
  match goal with
  | H : ?t = _ |- context [?t] => rewrite H
  end; run.

Ltac solve_forall :=
  repeat first [apply Forall_nil | apply Forall_cons];
  cbn; try tauto; intuition congruence.

Ltac device Hdev :=
  match type of Hdev with
  | Some ?d = Some ?dev =>
      let Hd := fresh "Hd" in
      assert (Hd : dev = d) by congruence; clear Hdev; subst dev
  end.

Ltac same_events Htrace :=
  rewrite trace_after in Htrace; apply app_inv_head in Htrace; subst.

(** X8.  When no device is found (the alias is missing and blkid fails)
    or the temporary directory cannot be created, the Config-Drive source
    returns an error before any mount attempt: it has made no call but
    [os.Stat], blkid and [ioutil.TempDir], and leaves nothing to clean
    up. *)
Theorem configDrive_early_failure env s o s' evs :
  deviceOf env = None
  \/ (exists e, env_TempDir env "" "configdrive" = inr e) ->
  getMetadataFromConfigDrive env s = (o, s') ->
  trace s' = (trace s ++ evs)%list ->
  (exists e, o = Ret (None, None, Some e)) /\ Forall isEarly evs.
Proof.
  unfold deviceOf, alias, blkidArgs.
  intros Hearly Hrun Htrace. revert Hrun.
  unfold getMetadataFromConfigDrive. run.
  destruct (os_IsNotExist (env_Stat env _)) eqn:Hstat; run.
  - destruct (env_CombinedOutput env _) as [out [e|]] eqn:Hblkid; run.
    + intros Hrun; inversion Hrun; subst. same_events Htrace.
      split; [eexists; reflexivity|]. repeat constructor.
    + destruct Hearly as [Hdev | [e He]]; [discriminate|].
      rewrite He. run.
      intros Hrun; inversion Hrun; subst. same_events Htrace.
      split; [eexists; reflexivity|]. repeat constructor.
  - destruct Hearly as [Hdev | [e He]]; [discriminate|].
    rewrite He. run.
    intros Hrun; inversion Hrun; subst. same_events Htrace.
    split; [eexists; reflexivity|]. repeat constructor.
Qed.

Lemma configDrive_early_failure_witness :
  (deviceOf envNothing = None
   /\ (exists e, fst (getMetadataFromConfigDrive envNothing initial)
                 = Ret (None, None, Some e))
   /\ Forall isEarly [EvStat alias; EvExec blkidArgs])
  /\ ((exists e, env_TempDir envNoTempDir "" "configdrive" = inr e)
      /\ (exists e, fst (getMetadataFromConfigDrive envNoTempDir initial)
                    = Ret (None, None, Some e))
      /\ Forall isEarly [EvStat alias; EvTempDir "" "configdrive"]).
Proof.
  split.
  - split; [reflexivity|].
    apply (configDrive_early_failure
             envNothing initial
             (fst (getMetadataFromConfigDrive envNothing initial))
             (snd (getMetadataFromConfigDrive envNothing initial))
             [EvStat alias; EvExec blkidArgs]).
    + left. reflexivity.
    + apply surjective_pairing.
    + reflexivity.
  - split; [eexists; reflexivity|].
    apply (configDrive_early_failure
             envNoTempDir initial
             (fst (getMetadataFromConfigDrive envNoTempDir initial))
             (snd (getMetadataFromConfigDrive envNoTempDir initial))
             [EvStat alias; EvTempDir "" "configdrive"]).
    + right. eexists. reflexivity.
    + apply surjective_pairing.
    + reflexivity.
Defined.



(** X10.  When the device mounts neither as iso9660 nor as vfat, the
    Config-Drive source returns the error of the vfat attempt; it has
    tried iso9660 first and vfat second, it removes the temporary
    directory as its last call, and it neither unmounts nor opens a
    file. *)
Theorem configDrive_mount_failure env s o s' evs dev dir e1 e2 :
  deviceOf env = Some dev ->
  env_TempDir env "" "configdrive" = inl dir ->
  env_Mount env dev dir "iso9660" ["ro"] = Some e1 ->
  env_Mount env dev dir "vfat" ["ro"] = Some e2 ->
  getMetadataFromConfigDrive env s = (o, s') ->
  trace s' = (trace s ++ evs)%list ->
  o = Ret (None, None, Some e2)
  /\ exists before,
      evs = (before ++ [EvMount dev dir "iso9660" ["ro"] (Some e1);
                        EvMount dev dir "vfat" ["ro"] (Some e2);
                        EvRemove dir])%list
      /\ Forall isEarly before.
Proof.
  unfold deviceOf, alias, blkidArgs.
  intros Hdev Htmp Hiso Hvfat Hrun Htrace. revert Hrun.
  unfold getMetadataFromConfigDrive. run.
  destruct (os_IsNotExist (env_Stat env _)) eqn:Hstat; run.
  - destruct (env_CombinedOutput env _) as [out [e|]] eqn:Hblkid; run;
      [discriminate|].
    device Hdev. repeat follow.
    intros Hrun; inversion Hrun; subst; same_events Htrace.
    split; [reflexivity|].
    eexists [_; _; _]. split; [reflexivity|repeat constructor].
  - device Hdev. repeat follow.
    intros Hrun; inversion Hrun; subst; same_events Htrace.
    split; [reflexivity|].
    eexists [_; _]. split; [reflexivity|repeat constructor].
Qed.

Lemma configDrive_mount_failure_witness :
  fst (getMetadataFromConfigDrive
         (envDrive instanceFile topologyFile
                   (fun fstype => Some (OtherError ("wrong fs type " ++ fstype))))
         initial)
  = Ret (None, None, Some (OtherError "wrong fs type vfat"))
  /\ exists before,
      [EvStat alias; EvTempDir "" "configdrive";
       EvMount alias "/tmp/configdrive046" "iso9660" ["ro"]
               (Some (OtherError "wrong fs type iso9660"));
       EvMount alias "/tmp/configdrive046" "vfat" ["ro"]
               (Some (OtherError "wrong fs type vfat"));
       EvRemove "/tmp/configdrive046"]
      = (before ++ [EvMount alias "/tmp/configdrive046" "iso9660" ["ro"]
                            (Some (OtherError "wrong fs type iso9660"));
                    EvMount alias "/tmp/configdrive046" "vfat" ["ro"]
                            (Some (OtherError "wrong fs type vfat"));
                    EvRemove "/tmp/configdrive046"])%list
      /\ Forall isEarly before.
Proof.
  apply (configDrive_mount_failure
           (envDrive instanceFile topologyFile
                     (fun fstype => Some (OtherError ("wrong fs type " ++ fstype))))
           initial
           (fst (getMetadataFromConfigDrive
                   (envDrive instanceFile topologyFile
                             (fun fstype => Some (OtherError ("wrong fs type " ++ fstype))))
                   initial))
           (snd (getMetadataFromConfigDrive
                   (envDrive instanceFile topologyFile
                             (fun fstype => Some (OtherError ("wrong fs type " ++ fstype))))
                   initial))
           _ alias "/tmp/configdrive046"
           (OtherError "wrong fs type iso9660") (OtherError "wrong fs type vfat")).
  - reflexivity.
  - reflexivity.
  - reflexivity.
  - reflexivity.
  - apply surjective_pairing.
  - reflexivity.
Defined.

(** X11.  The Config-Drive source tries vfat only when iso9660 has
    failed: a vfat attempt in a run comes with a failed iso9660 attempt
    on the same device and directory, and a run in which iso9660 mounted
    has no vfat attempt. *)
Theorem configDrive_vfat_after_iso env s o s' evs :
  getMetadataFromConfigDrive env s = (o, s') ->
  trace s' = (trace s ++ evs)%list ->
  (forall dev dir opts err,
      In (EvMount dev dir "vfat" opts err) evs ->
      exists e, In (EvMount dev dir "iso9660" opts (Some e)) evs)
  /\ (forall dev dir opts,
         In (EvMount dev dir "iso9660" opts None) evs ->
         forall dev' dir' opts' err,
           ~ In (EvMount dev' dir' "vfat" opts' err) evs).
Proof.
  intros Hrun Htrace. revert Hrun.
  unfold getMetadataFromConfigDrive. run.
  repeat cd_step.
  all: intros Hrun; inversion Hrun; subst; same_events Htrace.
  all: split;
    [intros dev dir opts err HIn; cbn [In] in HIn; split_In HIn;
     inversion HIn; subst; eexists; cbn; eauto 10
    |intros dev dir opts HIn dev' dir' opts' err HIn';
     cbn [In] in HIn, HIn'; split_In HIn; split_In HIn'].
Qed.

Lemma configDrive_vfat_after_iso_witness :
  (forall dev dir opts err,
      In (EvMount dev dir "vfat" opts err) configDriveEvents ->
      exists e, In (EvMount dev dir "iso9660" opts (Some e)) configDriveEvents)
  /\ (forall dev dir opts,
         In (EvMount dev dir "iso9660" opts None) configDriveEvents ->
         forall dev' dir' opts' err,
           ~ In (EvMount dev' dir' "vfat" opts' err) configDriveEvents).
Proof.
  apply (configDrive_vfat_after_iso
           envConfigDrive initial
           (fst (getMetadataFromConfigDrive envConfigDrive initial))
           (snd (getMetadataFromConfigDrive envConfigDrive initial))
           configDriveEvents).
  - apply surjective_pairing.
  - reflexivity.
Defined.

Ltac mounted H :=
  unfold mountable in H;
  let Hiso := fresh "Hiso" in
  let Hvfat := fresh "Hvfat" in
  destruct (env_Mount _ _ _ "iso9660" _) eqn:Hiso;
  [destruct (env_Mount _ _ _ "vfat" _) eqn:Hvfat; [discriminate H|]|].

(** X12.  When the device is mounted and the instance-metadata file
    cannot be opened, the Config-Drive source returns the error of that
    [os.Open], and the instance-metadata file is the only file it has
    tried to open: the network file is left alone. *)
Theorem configDrive_instance_file_missing env s o s' evs dev dir e :
  deviceOf env = Some dev ->
  env_TempDir env "" "configdrive" = inl dir ->
  mountable env dev dir = true ->
  env_Open env (filepath_Join dir metadataPath) = inr e ->
  getMetadataFromConfigDrive env s = (o, s') ->
  trace s' = (trace s ++ evs)%list ->
  o = Ret (None, None, Some e)
  /\ filter isOpenB evs = [EvOpen (filepath_Join dir metadataPath)].
Proof.
  unfold deviceOf, alias, blkidArgs.
  intros Hdev Htmp Hmnt Hopen Hrun Htrace. revert Hrun.
  unfold getMetadataFromConfigDrive. run.
  destruct (os_IsNotExist (env_Stat env _)) eqn:Hstat; run;
    [destruct (env_CombinedOutput env _) as [out [e0|]] eqn:Hblkid; run;
     [discriminate|]|];
    device Hdev; mounted Hmnt; repeat follow;
    intros Hrun; inversion Hrun; subst; same_events Htrace;
    split; reflexivity.
Qed.

Lemma configDrive_instance_file_missing_witness :
  fst (getMetadataFromConfigDrive
         (envDrive noFile topologyFile (fun _ => None)) initial)
  = Ret (None, None,
         Some (PathError "open"
                         "/tmp/configdrive046/openstack/2012-08-10/meta_data.json"
                         ErrNotExist))
  /\ filter isOpenB
            (trace (snd (getMetadataFromConfigDrive
                           (envDrive noFile topologyFile (fun _ => None)) initial)))
     = [EvOpen (filepath_Join "/tmp/configdrive046" metadataPath)].
Proof.
  apply (configDrive_instance_file_missing
           (envDrive noFile topologyFile (fun _ => None)) initial
           (fst (getMetadataFromConfigDrive
                   (envDrive noFile topologyFile (fun _ => None)) initial))
           (snd (getMetadataFromConfigDrive
                   (envDrive noFile topologyFile (fun _ => None)) initial))
           _ alias "/tmp/configdrive046").
  - reflexivity.
  - reflexivity.
  - reflexivity.
  - reflexivity.
  - apply surjective_pairing.
  - reflexivity.
Defined.



(** X14.  When the device is mounted and both files open, the result of
    the Config-Drive source is the record of the instance-metadata file
    together with what [parseNetworkdata] makes of the network file: its
    topology, or none when the network file cannot be read or decoded.
    A bad network file never turns the result into an error. *)
Theorem configDrive_topology_best_effort env s o s' evs dev dir f f2 md nd err :
  deviceOf env = Some dev ->
  env_TempDir env "" "configdrive" = inl dir ->
  mountable env dev dir = true ->
  env_Open env (filepath_Join dir metadataPath) = inl f ->
  env_Open env (filepath_Join dir networkdataPath) = inl f2 ->
  parseMetadata (fileReader (Some f)) s = (Ret (Some md, None), s) ->
  parseNetworkdata (fileReader (Some f2)) s = (Ret (nd, err), s) ->
  getMetadataFromConfigDrive env s = (o, s') ->
  trace s' = (trace s ++ evs)%list ->
  o = Ret (Some md, nd, None).
Proof.
  unfold deviceOf, alias, blkidArgs.
  intros Hdev Htmp Hmnt Hopen Hopen2 Hmd Hnd Hrun Htrace. revert Hrun.
  assert (Hparse : forall st,
             parseFullMetadata (fileReader (Some f)) (fileReader (Some f2)) st
             = (Ret (Some md, nd, None), st)).
  { destruct (parseFullMetadata_files (Some f) (Some f2)) as [r [Hr _]].
    pose proof (Hr s) as Hs.
    unfold parseFullMetadata, bind in Hs. rewrite Hmd in Hs. cbn in Hs.
    rewrite Hnd in Hs. cbn in Hs. inversion Hs; subst r. exact Hr. }
  unfold getMetadataFromConfigDrive. run.
  destruct (os_IsNotExist (env_Stat env _)) eqn:Hstat; run;
    [destruct (env_CombinedOutput env _) as [out [e0|]] eqn:Hblkid; run;
     [discriminate|]|];
    device Hdev; mounted Hmnt; repeat follow;
    rewrite Hparse; run;
    intros Hrun; inversion Hrun; reflexivity.
Qed.

Lemma configDrive_topology_best_effort_witness :
  fst (getMetadataFromConfigDrive
         (envDrive instanceFile brokenFile (fun _ => None)) initial)
  = Ret (Some (mkMetadata "abc-123" "vm1" "az1"), None, None).
Proof.
  apply (configDrive_topology_best_effort
           (envDrive instanceFile brokenFile (fun _ => None)) initial
           (fst (getMetadataFromConfigDrive
                   (envDrive instanceFile brokenFile (fun _ => None)) initial))
           (snd (getMetadataFromConfigDrive
                   (envDrive instanceFile brokenFile (fun _ => None)) initial))
           (trace (snd (getMetadataFromConfigDrive
                          (envDrive instanceFile brokenFile (fun _ => None)) initial)))
           alias "/tmp/configdrive046"
           (mkFile "/tmp/configdrive046/openstack/2012-08-10/meta_data.json"
                   (JSON.Text exampleDocument))
           (mkFile "/tmp/configdrive046/openstack/2015-10-15/network_data.json"
                   (JSON.Broken (SyntaxError "invalid character '<'")))
           (mkMetadata "abc-123" "vm1" "az1") None
           (Some (SyntaxError "invalid character '<'"))).
  - reflexivity.
  - reflexivity.
  - reflexivity.
  - reflexivity.
  - reflexivity.
  - reflexivity.
  - reflexivity.
  - apply surjective_pairing.
  - reflexivity.
Defined.

(** ** The sources and the cache *)

Lemma configDrive_no_http env s :
  exists r evs,
    getMetadataFromConfigDrive env s = (Ret r, after s evs)
    /\ Forall (fun e => ~ isHttpEvent e) evs.
Proof.
  unfold getMetadataFromConfigDrive. run.
  repeat cd_step.
  all: do 2 eexists; split; [reflexivity|solve_forall].
Qed.

Lemma metadataService_only_http env s :
  exists o evs,
    getMetadataFromMetadataService env s = (o, after s evs)
    /\ Forall isHttpEvent evs.
Proof.
  unfold getMetadataFromMetadataService. run_get.
  destruct (env_Get env (metadataUrl ++ metadataPath)) as [resp|err]; run_get.
  2: { do 2 eexists. split; [reflexivity|solve_forall]. }
  destruct (negb (StatusCode resp =? 200)%Z); run_get.
  { do 2 eexists. split; [reflexivity|solve_forall]. }
  destruct (env_Get env (metadataUrl ++ networkdataPath)) as [resp2|err2]; run_get.
  - destruct (negb (StatusCode resp2 =? 200)%Z); run_get;
      match goal with
      | |- context [parseFullMetadata ?a ?b ?st] =>
          destruct (parseFullMetadata_cases a b st) as [o [-> _]]
      end;
      (do 2 eexists; split; [reflexivity|solve_forall]).
  - match goal with
    | |- context [parseFullMetadata ?a ?b ?st] =>
        destruct (parseFullMetadata_cases a b st) as [o [-> _]]
    end.
    do 2 eexists. split; [reflexivity|solve_forall].
Qed.

(** X15.  Neither source writes the cache, and each keeps to its own
    collaborators: a run of the Config-Drive source makes no request and
    closes no response body, and a run of the Metadata-Service source
    makes no call to the operating system (no stat, blkid, directory,
    mount or file). *)
Theorem sources_keep_apart env s :
  (forall o s' evs,
      getMetadataFromConfigDrive env s = (o, s') ->
      trace s' = (trace s ++ evs)%list ->
      metadataCache s' = metadataCache s
      /\ networkdataCache s' = networkdataCache s
      /\ Forall (fun e => ~ isHttpEvent e) evs)
  /\ (forall o s' evs,
         getMetadataFromMetadataService env s = (o, s') ->
         trace s' = (trace s ++ evs)%list ->
         metadataCache s' = metadataCache s
         /\ networkdataCache s' = networkdataCache s
         /\ Forall isHttpEvent evs).
Proof.
  split; intros o s' evs Hrun Htrace.
  - destruct (configDrive_no_http env s) as (r & evs0 & Hrun0 & Hev).
    rewrite Hrun0 in Hrun. inversion Hrun; subst. same_events Htrace.
    repeat split; assumption.
  - destruct (metadataService_only_http env s) as (o0 & evs0 & Hrun0 & Hev).
    rewrite Hrun0 in Hrun. inversion Hrun; subst. same_events Htrace.
    repeat split; assumption.
Qed.

(** X16.  The config drive has priority: with an empty cache, when the
    Config-Drive source returns without error, [getMetadata] returns and
    caches its record and topology and the metadata service is not
    contacted at all. *)
Theorem getMetadata_configDrive_first env s md nd s1 evs :
  metadataCache s = None ->
  getMetadataFromConfigDrive env s = (Ret (md, nd, None), s1) ->
  trace s1 = (trace s ++ evs)%list ->
  getMetadata env s = (Ret (md, nd, None), mkState md nd (trace s ++ evs))
  /\ Forall (fun e => ~ isHttpEvent e) evs.
Proof.
  intros Hc Hcd Htrace. split.
  - rewrite (getMetadata_uncached env s Hc), Hcd, Htrace. reflexivity.
  - destruct (configDrive_no_http env s) as (r & evs0 & Hrun0 & Hev).
    rewrite Hrun0 in Hcd. inversion Hcd; subst. same_events Htrace. exact Hev.
Qed.

Lemma getMetadata_configDrive_first_witness :
  getMetadata envConfigDrive initial
  = (Ret (Some (mkMetadata "abc-123" "vm1" "az1"), None, None),
     mkState (Some (mkMetadata "abc-123" "vm1" "az1")) None
             (trace initial ++ configDriveEvents))
  /\ Forall (fun e => ~ isHttpEvent e) configDriveEvents.
Proof.
  apply (getMetadata_configDrive_first
           envConfigDrive initial
           (Some (mkMetadata "abc-123" "vm1" "az1")) None
           (after initial configDriveEvents) configDriveEvents).
  - reflexivity.
  - reflexivity.
  - reflexivity.
Defined.

(** ** When [getMetadata] panics, and what it returns as an error *)

Lemma parseFullMetadata_panic a b st st' :
  parseFullMetadata a b st = (Panic, st') ->
  fst (Read a st) = Panic
  \/ ((exists v, fst (Read a st) = Ret (JSON.Text v)) /\ fst (Read b st) = Panic).
Proof.
  unfold parseFullMetadata, parseMetadata, parseNetworkdata, bind.
  rewrite Decode_eq.
  destruct (fst (Read a st)) as [[v|e]|]; cbn [ret]; [|discriminate|now left].
  destruct (unmarshalMetadata v zeroMetadata) as [m [e|]]; [discriminate|].
  destruct (Uuid m =? ""); [discriminate|]. cbn [ret].
  rewrite Decode_eq.
  destruct (fst (Read b st)) as [[v2|e2]|]; cbn [ret].
  - destruct (unmarshalNetworkdata v2 zeroNetworkdata) as [nd [e|]]; discriminate.
  - discriminate.
  - intros _. right. split; [now exists v|reflexivity].
Qed.

Lemma metadataService_panic env s s' :
  getMetadataFromMetadataService env s = (Panic, s') ->
  (exists resp v,
      env_Get env (metadataUrl ++ metadataPath) = inl resp
      /\ StatusCode resp = 200%Z
      /\ bodyAfterClose (RespBody resp) = JSON.Text v)
  /\ match env_Get env (metadataUrl ++ networkdataPath) with
     | inl resp2 => StatusCode resp2 <> 200%Z
     | inr _ => True
     end.
Proof.
  intros Hrun. pose proof (metadataService_stops env s) as Hstop.
  destruct (env_Get env (metadataUrl ++ metadataPath)) as [resp|e] eqn:Hget.
  2: { rewrite Hstop in Hrun. discriminate. }
  destruct (StatusCode resp =? 200)%Z eqn:Hok.
  2: { apply Z.eqb_neq in Hok. destruct (Hstop Hok) as [msg Hm].
       rewrite Hm in Hrun. discriminate. }
  rewrite (metadataService_parse env s resp Hget Hok) in Hrun.
  apply Z.eqb_eq in Hok.
  destruct (env_Get env (metadataUrl ++ networkdataPath)) as [resp2|e2].
  - apply parseFullMetadata_panic in Hrun.
    rewrite Read_closed in Hrun by (cbn; auto). cbn [fst] in Hrun.
    destruct Hrun as [Hp | [[v Hv] Hp]]; [discriminate|].
    destruct (StatusCode resp2 =? 200)%Z eqn:Hok2.
    + rewrite Read_closed in Hp by (cbn; auto). discriminate.
    + split; [|now apply Z.eqb_neq].
      exists resp, v. repeat split; congruence.
  - apply parseFullMetadata_panic in Hrun.
    rewrite Read_closed in Hrun by (cbn; auto). cbn [fst] in Hrun.
    destruct Hrun as [Hp | [[v Hv] Hp]]; [discriminate|].
    split; [|exact I].
    exists resp, v. repeat split; congruence.
Qed.

(** X17.  [getMetadata] panics in one situation only: the cache is
    empty, the config drive has failed, the metadata service has answered
    the first request with status 200 and a body that still delivers a
    JSON document after [Close], and the second request has failed.  The
    cache is then left empty.  In particular it does not panic with the
    response bodies of [net/http], nor when the second request is
    answered with status 200. *)
Theorem getMetadata_panics_only env s s' :
  getMetadata env s = (Panic, s') ->
  metadataCache s = None
  /\ metadataCache s' = None
  /\ networkdataCache s' = networkdataCache s
  /\ (exists e s1, getMetadataFromConfigDrive env s = (Ret (None, None, Some e), s1))
  /\ (exists resp v,
         env_Get env (metadataUrl ++ metadataPath) = inl resp
         /\ StatusCode resp = 200%Z
         /\ bodyAfterClose (RespBody resp) = JSON.Text v)
  /\ match env_Get env (metadataUrl ++ networkdataPath) with
     | inl resp2 => StatusCode resp2 <> 200%Z
     | inr _ => True
     end.
Proof.
  destruct (metadataCache s) as [m|] eqn:Hc.
  { rewrite (getMetadata_cached env s m Hc). discriminate. }
  rewrite (getMetadata_uncached env s Hc).
  destruct (configDrive_run env s) as (r & evs & Hcd & Hr & _).
  rewrite Hcd.
  destruct Hr as [[e ->] | [m [nd [-> _]]]]; [|discriminate].
  destruct (metadataService_run env (after s evs)) as (o & evs' & Hms & _).
  rewrite Hms.
  destruct o as [[[md nd] [e'|]]|]; try discriminate.
  intros H; inversion H; subst s'.
  destruct (metadataService_panic env _ _ Hms) as [Hfirst Hsecond].
  repeat split; try assumption.
  now exists e, (after s evs).
Qed.

Lemma getMetadata_panics_only_witness :
  fst (getMetadata (envNoTopology replayBody) initial) = Panic
  /\ (exists resp v,
         env_Get (envNoTopology replayBody) (metadataUrl ++ metadataPath) = inl resp
         /\ StatusCode resp = 200%Z
         /\ bodyAfterClose (RespBody resp) = JSON.Text v).
Proof.
  split; [reflexivity|].
  apply (getMetadata_panics_only
           (envNoTopology replayBody) initial
           (snd (getMetadata (envNoTopology replayBody) initial))).
  reflexivity.
Defined.

(** X18.  When [getMetadata] returns an error, the error is the one of
    the Metadata-Service source: the cache was empty, the config drive had
    failed as well, and the error of the config drive is not reported.
    No record and no topology come with the error, and the cache is left
    as it was. *)
Theorem getMetadata_error_is_service_error env s md nd err s' :
  getMetadata env s = (Ret (md, nd, Some err), s') ->
  md = None /\ nd = None
  /\ metadataCache s = None
  /\ metadataCache s' = None
  /\ networkdataCache s' = networkdataCache s
  /\ exists e1 s1,
      getMetadataFromConfigDrive env s = (Ret (None, None, Some e1), s1)
      /\ getMetadataFromMetadataService env s1 = (Ret (None, None, Some err), s').
Proof.
  destruct (metadataCache s) as [m|] eqn:Hc.
  { rewrite (getMetadata_cached env s m Hc). discriminate. }
  rewrite (getMetadata_uncached env s Hc).
  destruct (configDrive_run env s) as (r & evs & Hcd & Hr & _).
  rewrite Hcd.
  destruct Hr as [[e ->] | [m [nd0 [-> _]]]]; [|discriminate].
  destruct (metadataService_run env (after s evs)) as (o & evs' & Hms & Ho & _).
  rewrite Hms.
  destruct Ho as [-> | [r [-> Hr]]]; [discriminate|].
  destruct Hr as [[e' ->] | [m [nd0 [-> _]]]]; [|discriminate].
  intros H; inversion H; subst.
  repeat split; try assumption.
  exists e, (after s evs). split; [reflexivity|exact Hms].
Qed.

Lemma getMetadata_error_is_service_error_witness :
  getMetadata envNothing initial
  = (Ret (None, None, Some (OtherError "dial tcp 169.254.169.254:80: i/o timeout")),
     after initial [EvStat alias; EvExec blkidArgs;
                    EvHttpGet (metadataUrl ++ metadataPath)])
  /\ exists e1 s1,
      getMetadataFromConfigDrive envNothing initial = (Ret (None, None, Some e1), s1)
      /\ getMetadataFromMetadataService envNothing s1
         = (Ret (None, None,
                 Some (OtherError "dial tcp 169.254.169.254:80: i/o timeout")),
            after initial [EvStat alias; EvExec blkidArgs;
                           EvHttpGet (metadataUrl ++ metadataPath)]).
Proof.
  split; [reflexivity|].
  apply (getMetadata_error_is_service_error
           envNothing initial None None
           (OtherError "dial tcp 169.254.169.254:80: i/o timeout")
           (after initial [EvStat alias; EvExec blkidArgs;
                           EvHttpGet (metadataUrl ++ metadataPath)])).
  reflexivity.
Defined.

(** ** The two cache variables together *)

Lemma parseFullMetadata_NetLink a b st md nd err st' :
  parseFullMetadata a b st = (Ret (md, Some nd, err), st') ->
  Forall (fun n => NetLink n = None) (Networks nd).
Proof.
  unfold parseFullMetadata, bind.
  destruct (parseMetadata_cases a st) as [o1 [-> [-> | [[e ->] | [m [-> Hm]]]]]];
    try discriminate.
  destruct (parseNetworkdata b st) as [[[nd' e']|] st2] eqn:Hnd; [|discriminate].
  cbn. intros H; inversion H; subst.
  exact (parseNetworkdata_NetLink _ _ _ _ _ Hnd).
Qed.

Lemma configDrive_NetLink env s md nd err s' :
  getMetadataFromConfigDrive env s = (Ret (md, Some nd, err), s') ->
  Forall (fun n => NetLink n = None) (Networks nd).
Proof.
  unfold getMetadataFromConfigDrive. run.
  repeat cd_step.
  all: intros Hrun; inversion Hrun; subst.
  all: match goal with
       | H : forall st, parseFullMetadata _ _ st = _ |- _ =>
           exact (parseFullMetadata_NetLink _ _ _ _ _ _ _ (H s))
       end.
Qed.

Lemma metadataService_NetLink env s md nd err s' :
  getMetadataFromMetadataService env s = (Ret (md, Some nd, err), s') ->
  Forall (fun n => NetLink n = None) (Networks nd).
Proof.
  intros Hrun. pose proof (metadataService_stops env s) as Hstop.
  destruct (env_Get env (metadataUrl ++ metadataPath)) as [resp|e] eqn:Hget.
  2: { rewrite Hstop in Hrun. discriminate. }
  destruct (StatusCode resp =? 200)%Z eqn:Hok.
  2: { apply Z.eqb_neq in Hok. destruct (Hstop Hok) as [msg Hm].
       rewrite Hm in Hrun. discriminate. }
  rewrite (metadataService_parse env s resp Hget Hok) in Hrun.
  destruct (env_Get env (metadataUrl ++ networkdataPath));
    exact (parseFullMetadata_NetLink _ _ _ _ _ _ _ Hrun).
Qed.

Lemma getMetadata_cachePaired env s o s' :
  cachePaired s -> getMetadata env s = (o, s') -> cachePaired s'.
Proof.
  intros Hp. destruct (metadataCache s) as [m|] eqn:Hc.
  - rewrite (getMetadata_cached env s m Hc). intros H; inversion H; subst. exact Hp.
  - rewrite (getMetadata_uncached env s Hc).
    destruct (getMetadataFromConfigDrive env s) as [o1 s1] eqn:Hcd.
    destruct (configDrive_run env s) as (r & evs & Hrun & Hr & _).
    rewrite Hrun in Hcd. inversion Hcd; subst o1 s1. clear Hcd.
    assert (Hkeep : forall evs0, cachePaired (after s evs0)) by (intros; exact Hp).
    destruct Hr as [[e ->] | [m [nd [-> Hm]]]].
    + destruct (getMetadataFromMetadataService env (after s evs)) as [o2 s2] eqn:Hms.
      destruct (metadataService_run env (after s evs)) as (o3 & evs' & Hrun' & Ho & _).
      rewrite Hrun' in Hms. inversion Hms; subst o2 s2. clear Hms.
      destruct Ho as [-> | [r [-> Hr]]].
      * intros H; inversion H; subst. rewrite after_after. apply Hkeep.
      * destruct Hr as [[e' ->] | [m [nd [-> Hm]]]];
          intros H; inversion H; subst.
        -- rewrite after_after. apply Hkeep.
        -- split; cbn; [discriminate|].
           intros nd' Hnd. subst nd.
           exact (metadataService_NetLink _ _ _ _ _ _ Hrun').
    + intros H; inversion H; subst. split; cbn; [discriminate|].
      intros nd' Hnd. subst nd.
      exact (configDrive_NetLink _ _ _ _ _ _ Hrun).
Qed.

(** X19.  In every state the process can be in, the topology cache is
    set only together with the record cache (the topology alone may be
    missing), and no interface of a cached topology has its link
    resolved. *)
Theorem cache_variables_paired s :
  reachable s -> cachePaired s.
Proof.
  induction 1 as [|env s o s' _ IH Hcall].
  - split; [reflexivity|discriminate].
  - exact (getMetadata_cachePaired env s o s' IH Hcall).
Qed.

Lemma cache_variables_paired_witness :
  networkdataCache (snd (getMetadata (envService replayBody) initial))
  = Some (mkNetworkdata [mkLink "fa:16:3e:00:00:01" "ovs" "tap1"]
                        [mkNetwork "net1" "" "tap1" None "ipv4_dhcp"] [])
  /\ cachePaired (snd (getMetadata (envService replayBody) initial)).
Proof.
  split; [reflexivity|].
  apply (cache_variables_paired (snd (getMetadata (envService replayBody) initial))).
  apply (reach_call (envService replayBody) initial
                    (fst (getMetadata (envService replayBody) initial))).
  - exact reach_initial.
  - apply surjective_pairing.
Defined.

(** ** Calls with an empty cache do not depend on earlier calls *)

Lemma parseFullMetadata_Read a b st a' b' st' :
  fst (Read a st) = fst (Read a' st') ->
  fst (Read b st) = fst (Read b' st') ->
  fst (parseFullMetadata a b st) = fst (parseFullMetadata a' b' st').
Proof.
  intros Ha Hb.
  unfold parseFullMetadata, parseMetadata, parseNetworkdata, bind.
  rewrite !Decode_eq, <- Ha.
  destruct (fst (Read a st)) as [[v|e]|]; cbn [ret]; try reflexivity.
  destruct (unmarshalMetadata v zeroMetadata) as [m [e|]]; [reflexivity|].
  destruct (Uuid m =? ""); [reflexivity|]. cbn [ret].
  rewrite !Decode_eq, <- Hb.
  destruct (fst (Read b st)) as [[v2|e2]|]; cbn [ret]; try reflexivity.
  destruct (unmarshalNetworkdata v2 zeroNetworkdata) as [nd [e|]]; reflexivity.
Qed.

Lemma configDrive_outcome env s s' :
  fst (getMetadataFromConfigDrive env s) = fst (getMetadataFromConfigDrive env s').
Proof.
  unfold getMetadataFromConfigDrive. run.
  repeat cd_step; reflexivity.
Qed.

Lemma metadataService_outcome env s s' :
  fst (getMetadataFromMetadataService env s)
  = fst (getMetadataFromMetadataService env s').
Proof.
  pose proof (metadataService_stops env s) as Hstop.
  pose proof (metadataService_stops env s') as Hstop'.
  destruct (env_Get env (metadataUrl ++ metadataPath)) as [resp|e] eqn:Hget.
  2: { now rewrite Hstop, Hstop'. }
  destruct (StatusCode resp =? 200)%Z eqn:Hok.
  2: { apply Z.eqb_neq in Hok.
       destruct (Hstop Hok) as [msg Hm]. destruct (Hstop' Hok) as [msg' Hm'].
       rewrite Hm, Hm'. cbn [fst].
       revert Hm Hm'. unfold getMetadataFromMetadataService. run_get.
       rewrite Hget. run_get. apply Z.eqb_neq in Hok. rewrite Hok. cbn [negb].
       run_get. intros Hm Hm'. inversion Hm. inversion Hm'. reflexivity. }
  rewrite (metadataService_parse env s resp Hget Hok),
          (metadataService_parse env s' resp Hget Hok).
  destruct (env_Get env (metadataUrl ++ networkdataPath)) as [resp2|e2].
  - apply parseFullMetadata_Read.
    + rewrite !Read_closed by (cbn; auto). reflexivity.
    + destruct (StatusCode resp2 =? 200)%Z; [|reflexivity].
      rewrite !Read_closed by (cbn; auto). reflexivity.
  - apply parseFullMetadata_Read.
    + rewrite !Read_closed by (cbn; auto). reflexivity.
    + reflexivity.
Qed.

(** X20.  What a call of [getMetadata] with an empty cache returns
    depends on the answers of the environment only, not on the calls made
    before: a call after any number of failed calls returns what a first
    call would return. *)
Theorem getMetadata_independent_of_history env s s' :
  metadataCache s = None ->
  metadataCache s' = None ->
  fst (getMetadata env s) = fst (getMetadata env s').
Proof.
  intros Hc Hc'.
  rewrite (getMetadata_uncached env s Hc), (getMetadata_uncached env s' Hc').
  pose proof (configDrive_outcome env s s') as Hcd.
  destruct (getMetadataFromConfigDrive env s) as [o1 s1].
  destruct (getMetadataFromConfigDrive env s') as [o1' s1'].
  cbn [fst] in Hcd. subst o1'.
  destruct o1 as [[[md nd] [e|]]|]; try reflexivity.
  pose proof (metadataService_outcome env s1 s1') as Hms.
  destruct (getMetadataFromMetadataService env s1) as [o2 s2].
  destruct (getMetadataFromMetadataService env s1') as [o2' s2'].
  cbn [fst] in Hms. subst o2'.
  destruct o2 as [[[md' nd'] [e'|]]|]; reflexivity.
Qed.

Lemma getMetadata_independent_of_history_witness :
  metadataCache (snd (getMetadata envNothing initial)) = None
  /\ fst (getMetadata (envService replayBody) initial)
     = fst (getMetadata (envService replayBody)
                        (snd (getMetadata envNothing initial))).
Proof.
  split; [reflexivity|].
  apply (getMetadata_independent_of_history
           (envService replayBody) initial (snd (getMetadata envNothing initial))).
  - reflexivity.
  - reflexivity.
Defined.
